(** * Skill tools front end: type-keyed cache invalidation, the skill list
      and the skill install modal.

    Shallow embedding of
      - web/service/use-tools.ts                      (query keys, invalidation, mutations)
      - web/app/components/tools/skill/index.tsx      (SkillList)
      - web/app/components/tools/skill/modal.tsx      (SkillModal)
      - web/app/components/tools/skill/create-card    (NewSkillCard, owner of the modal)

    JavaScript strings are sequences of UTF-16 code units.  React event
    handlers are closures over the state of the render that created them:
    a handler is a function from that captured state to the trace of
    effects it performs (state setters, toasts, network calls, callbacks);
    the trace is then replayed on the component state. *)

From stdpp Require Import base option list strings gmap.

(** ** JavaScript strings *)

Module Js.

Abbreviation jsstring := (list N).

(** A source literal (ASCII only) as a sequence of code units. *)
Definition lit (s : string) : jsstring :=
  (λ a, Ascii.N_of_ascii a) <$> String.list_ascii_of_string s.

(** ToBoolean on strings: only the empty string is falsy. *)
Definition truthy (s : jsstring) : bool :=
  match s with [] => false | _ :: _ => true end.

(** [a || b] on strings. *)
Definition or_else (a b : jsstring) : jsstring :=
  if truthy a then a else b.

(** [a || undefined] on strings. *)
Definition or_undefined (a : jsstring) : option jsstring :=
  if truthy a then Some a else None.

(** [a || b] where [a] may be undefined. *)
Definition opt_or_else (a : option jsstring) (b : jsstring) : jsstring :=
  match a with
  | Some s => or_else s b
  | None => b
  end.

(** WhiteSpace and LineTerminator code points of ECMAScript, the ones
    String.prototype.trim strips.  All lie in the basic plane, so the test
    is on one code unit. *)
Definition isWhiteSpace (c : N) : bool :=
  ((9 <=? c) && (c <=? 13) || (c =? 32) || (c =? 160) || (c =? 5760)
   || (8192 <=? c) && (c <=? 8202) || (c =? 8232) || (c =? 8233)
   || (c =? 8239) || (c =? 8287) || (c =? 12288) || (c =? 65279))%N.

Fixpoint trimStart (s : jsstring) : jsstring :=
  match s with
  | [] => []
  | c :: s' => if isWhiteSpace c then trimStart s' else s
  end.

Definition trimEnd (s : jsstring) : jsstring :=
  reverse (trimStart (reverse s)).

Definition trim (s : jsstring) : jsstring := trimEnd (trimStart s).

Fixpoint startsWith (s search : jsstring) {struct search} : bool :=
  match search, s with
  | [], _ => true
  | _ :: _, [] => false
  | p :: search', c :: s' => (p =? c)%N && startsWith s' search'
  end.

Definition endsWith (s search : jsstring) : bool :=
  startsWith (reverse s) (reverse search).

Fixpoint includes (s search : jsstring) : bool :=
  startsWith s search ||
  match s with
  | [] => false
  | _ :: s' => includes s' search
  end.

(** A string that is empty or holds nothing but white space. *)
Definition blank (s : jsstring) : Prop := Forall (λ c, isWhiteSpace c = true) s.

End Js.

Import Js.

(** ** Data of web/service/use-tools.ts *)

Abbreviation QueryKey := (list jsstring).

Inductive SourceType := source_git | source_upload | source_path.

Inductive Icon :=
  | IconString (s : jsstring)
  | IconObject (background content : jsstring).

(** [export type SkillProvider]; optional fields are options. *)
Module SkillProvider.
Record t := mk {
  id : jsstring;
  name : jsstring;
  skill_identifier : jsstring;
  description : jsstring;
  icon : option Icon;
  source_type : SourceType;
  source_url : option jsstring;
  version : jsstring;
  author : option jsstring;
  has_scripts : bool;
  enabled : bool;
  created_at : jsstring;
  updated_at : option jsstring
}.
End SkillProvider.

(** A browser [File]: the picker hands over its name and its bytes. *)
Module File.
Record t := mk { name : jsstring; bytes : list N }.
End File.

(** Payload of [useInstallSkill]'s mutationFn. *)
Module InstallPayload.
Record t := mk {
  source_type : SourceType;
  git_url : option jsstring;
  git_branch : option jsstring;
  path : option jsstring;
  name : option jsstring
}.
End InstallPayload.

(** Payload of [useUploadSkill]'s mutationFn. *)
Module UploadPayload.
Record t := mk { file : File.t; name : option jsstring }.
End UploadPayload.

Inductive FormValue :=
  | FormFile (f : File.t)
  | FormString (s : jsstring).

(** Request bodies handed to [post]: a JSON object or a [FormData], the
    latter as its entries in append order. *)
Inductive Body :=
  | JsonBody (payload : InstallPayload.t)
  | FormData (entries : list (jsstring * FormValue)).

(** What a thrown value offers to [error?.message]: nothing when the value
    is nullish or carries no message. *)
Record Thrown := { message : option jsstring }.

(** How an awaited request settles. *)
Inductive Outcome :=
  | Resolved (provider : SkillProvider.t)
  | Rejected (error : Thrown).

Inductive ToastType := toast_success | toast_error | toast_warning | toast_info.

(** ** Effects *)

(** Everything a hook result or an event handler does to the world
    outside its own return value, in program order.  [InvalidateNonKey]
    is a call of [invalidateQueries] whose [queryKey] is no query key but
    the member of [Object.prototype] of the given name. *)
Inductive Event :=
  | InvalidateQueries (queryKey : QueryKey)
  | InvalidateNonKey (member : jsstring)
  | Post (url : jsstring) (body : Body)
  | Settled (o : Outcome)
  | ToastNotify (type : ToastType) (message : jsstring)
  | OnConfirm (provider : SkillProvider.t)
  | OnHide
  | SetIsLoading (b : bool)
  | SetFile (f : File.t).

#[global] Instance SourceType_eq_dec : EqDecision SourceType.
Proof. solve_decision. Defined.
#[global] Instance Icon_eq_dec : EqDecision Icon.
Proof. solve_decision. Defined.
#[global] Instance SkillProvider_eq_dec : EqDecision SkillProvider.t.
Proof. solve_decision. Defined.
#[global] Instance File_eq_dec : EqDecision File.t.
Proof. solve_decision. Defined.
#[global] Instance InstallPayload_eq_dec : EqDecision InstallPayload.t.
Proof. solve_decision. Defined.
#[global] Instance FormValue_eq_dec : EqDecision FormValue.
Proof. solve_decision. Defined.
#[global] Instance Body_eq_dec : EqDecision Body.
Proof. solve_decision. Defined.
#[global] Instance Thrown_eq_dec : EqDecision Thrown.
Proof. solve_decision. Defined.
#[global] Instance Outcome_eq_dec : EqDecision Outcome.
Proof. solve_decision. Defined.
#[global] Instance ToastType_eq_dec : EqDecision ToastType.
Proof. solve_decision. Defined.
#[global] Instance Event_eq_dec : EqDecision Event.
Proof. solve_decision. Defined.

(** A computation with effects: its trace and its value. *)
Definition Eff (A : Type) : Type := list Event * A.

Definition trace {A} (m : Eff A) : list Event := m.1.

#[global] Instance Eff_ret : MRet Eff := λ A a, ([], a).
#[global] Instance Eff_bind : MBind Eff :=
  λ A B f m, let '(tr1, a) := m in let '(tr2, b) := f a in (tr1 ++ tr2, b).

Definition emit (e : Event) : Eff unit := ([e], ()).

Definition is_invalidate (e : Event) : bool :=
  match e with
  | InvalidateQueries _ | InvalidateNonKey _ => true
  | _ => false
  end.

Definition is_post (e : Event) : bool :=
  match e with Post _ _ => true | _ => false end.

Definition is_on_confirm (e : Event) : bool :=
  match e with OnConfirm _ => true | _ => false end.

Definition is_on_hide (e : Event) : bool :=
  match e with OnHide => true | _ => false end.

Definition is_toast (ty : ToastType) (e : Event) : bool :=
  match e, ty with
  | ToastNotify toast_success _, toast_success
  | ToastNotify toast_error _, toast_error
  | ToastNotify toast_warning _, toast_warning
  | ToastNotify toast_info _, toast_info => true
  | _, _ => false
  end.

Definition count (p : Event → bool) (tr : list Event) : nat :=
  length (List.filter p tr).

(** ** web/service/use-base.ts and the query cache *)

Section QueryCache.
(** The query client's cache and its [invalidateQueries], as the
    data-fetching library provides them. *)
Variable Cache : Type.
Variable invalidateQueries : QueryKey → Cache → Cache.
(** What the library does when the [queryKey] it is handed is a member
    of [Object.prototype]. *)
Variable invalidateNonKey : jsstring → Cache → Cache.

(** The effect of a trace on the cache: only invalidations touch it. *)
Definition replay_cache (tr : list Event) (cache : Cache) : Cache :=
  foldl (λ c e, match e with
                | InvalidateQueries k => invalidateQueries k c
                | InvalidateNonKey member => invalidateNonKey member c
                | _ => c
                end) cache tr.
End QueryCache.

(** Modelled from the spec: [useInvalid] of web/service/use-base.ts, which
    is imported by use-tools.ts and is not part of the sources at hand.
    The paired invalidate function "marks the corresponding cached list
    stale", and it "must not invalidate an unrelated or undefined key":
    the function it returns invalidates the queries under the key it was
    given, and does nothing when it was given no key. *)
Definition useInvalid (key : option QueryKey) : Eff unit :=
  match key with
  | None => mret ()
  | Some k => emit (InvalidateQueries k)
  end.

(** What [useInvalid] can be handed at run time: a query key or, through
    a table that is a plain object, a member of [Object.prototype]; both
    are truthy. *)
Inductive KeyValue :=
  | KeyOf (k : QueryKey)
  | Member (name : jsstring).

(** Modelled from the spec: [useInvalid] of web/service/use-base.ts as
    above, on whatever value reaches it: with no key it does nothing, and
    any other value it passes to [invalidateQueries] as the [queryKey]. *)
Definition useInvalid_value (key : option KeyValue) : Eff unit :=
  match key with
  | None => useInvalid None
  | Some (KeyOf k) => useInvalid (Some k)
  | Some (Member name) => emit (InvalidateNonKey name)
  end.

(** The names every plain object answers to through [Object.prototype]. *)
Definition Object_prototype_names : list jsstring :=
  lit <$> ["constructor"; "__defineGetter__"; "__defineSetter__"; "hasOwnProperty";
           "__lookupGetter__"; "__lookupSetter__"; "isPrototypeOf";
           "propertyIsEnumerable"; "toString"; "valueOf"; "__proto__";
           "toLocaleString"]%string.

(** ** web/service/use-tools.ts *)

Module UseTools.

Definition NAME_SPACE : jsstring := lit "tools".

Definition useAllToolProvidersKey : QueryKey := [NAME_SPACE; lit "allToolProviders"].
Definition useAllBuiltInToolsKey : QueryKey := [NAME_SPACE; lit "builtIn"].
Definition useAllCustomToolsKey : QueryKey := [NAME_SPACE; lit "customTools"].
Definition useAllWorkflowToolsKey : QueryKey := [NAME_SPACE; lit "workflowTools"].
Definition useAllMCPToolsKey : QueryKey := [NAME_SPACE; lit "MCPTools"].
Definition useAllSkillToolsKey : QueryKey := [NAME_SPACE; lit "skillTools"].
Definition skillProvidersKey : QueryKey := [NAME_SPACE; lit "skill-providers"].

Definition useInvalidateAllBuiltInTools : Eff unit := useInvalid (Some useAllBuiltInToolsKey).
Definition useInvalidateAllCustomTools : Eff unit := useInvalid (Some useAllCustomToolsKey).
Definition useInvalidateAllWorkflowTools : Eff unit := useInvalid (Some useAllWorkflowToolsKey).
Definition useInvalidateAllMCPTools : Eff unit := useInvalid (Some useAllMCPToolsKey).
Definition useInvalidateAllSkillTools : Eff unit := useInvalid (Some useAllSkillToolsKey).
Definition useInvalidateSkillProviders : Eff unit := useInvalid (Some skillProvidersKey).

(** The members of the [CollectionType] enum that use-tools.ts mentions. *)
Inductive CollectionType := builtIn | custom | workflow | mcp | skill.

Section ByType.
(** The string each member of the enum stands for; the enum is declared
    in app/components/tools/types. *)
Variable CollectionType_value : CollectionType → jsstring.

Definition known_types : list jsstring :=
  CollectionType_value <$> [builtIn; custom; workflow; mcp; skill].

(** The own properties of the object literal, entry by entry in source
    order: a later entry with the same computed key replaces an earlier
    one. *)
Definition useInvalidToolsKeyMap : gmap jsstring QueryKey :=
  <[CollectionType_value skill := useAllSkillToolsKey]>
  (<[CollectionType_value mcp := useAllMCPToolsKey]>
  (<[CollectionType_value workflow := useAllWorkflowToolsKey]>
  (<[CollectionType_value custom := useAllCustomToolsKey]>
  (<[CollectionType_value builtIn := useAllBuiltInToolsKey]> ∅)))).

(** [useInvalidToolsKeyMap[type]]: the own property of that name, else
    the member the object inherits from [Object.prototype], else
    undefined. *)
Definition useInvalidToolsKeyMap_get (type : jsstring) : option KeyValue :=
  match useInvalidToolsKeyMap !! type with
  | Some k => Some (KeyOf k)
  | None =>
    if bool_decide (type ∈ Object_prototype_names) then Some (Member type) else None
  end.

Definition useInvalidToolsByType (type : option jsstring) : Eff unit :=
  let queryKey :=
    match type with
    | Some ty => if truthy ty then useInvalidToolsKeyMap_get ty else None
    | None => None
    end in
  useInvalid_value queryKey.
End ByType.

(** The network as the client sees it: what each request settles to. *)
Section Mutations.
Variable server : jsstring → Body → Outcome.

(** [await post<SkillProvider>(url, { body })]. *)
Definition post (url : jsstring) (body : Body) : Eff Outcome :=
  emit (Post url body) ;;
  let o := server url body in
  emit (Settled o) ;;
  mret o.

(** [mutateAsync] of [useInstallSkill]. *)
Definition installSkill (payload : InstallPayload.t) : Eff Outcome :=
  post (lit "/workspaces/current/tool-provider/skill/install") (JsonBody payload).

(** [mutateAsync] of [useUploadSkill]. *)
Definition uploadSkill (payload : UploadPayload.t) : Eff Outcome :=
  let formData := [(lit "file", FormFile (UploadPayload.file payload))] in
  let formData :=
    match UploadPayload.name payload with
    | Some n => if truthy n then formData ++ [(lit "name", FormString n)] else formData
    | None => formData
    end in
  post (lit "/workspaces/current/tool-provider/skill/upload") (FormData formData).
End Mutations.

(** One assignment of strings to the enum members, and a cache that
    records what it was asked to invalidate so far, for evaluation. *)
Definition sample_values (c : CollectionType) : jsstring :=
  match c with
  | builtIn => lit "builtin"
  | custom => lit "api"
  | workflow => lit "workflow"
  | mcp => lit "mcp"
  | skill => lit "skill"
  end.

Definition sample_invalidate (key : QueryKey) (stale : list QueryKey) : list QueryKey :=
  key :: stale.

Definition sample_invalidateNonKey (member : jsstring) (stale : list QueryKey)
  : list QueryKey :=
  [member] :: stale.

End UseTools.

(** ** web/app/components/tools/skill/index.tsx *)

Module SkillList.

(** The data of [useSkillProviders]. *)
Abbreviation SkillProviders := (list SkillProvider.t).

(** Lower-casing of one Basic Latin code unit. *)
Definition lower_unit (c : N) : N :=
  if ((65 <=? c) && (c <=? 90))%N then (c + 32)%N else c.

Record SkillCardProps := {
  key : jsstring;
  data : SkillProvider.t;
  card_currentProvider : option SkillProvider.t
}.

Record SkillDetailPanelProps := { detail : SkillProvider.t }.

(** What one render of [SkillList] returns: the cards of the grid after the
    create card, the placeholder cards, and the detail drawer if any. *)
Record View := {
  cards : list SkillCardProps;
  defaultCards : list nat;
  detailPanel : option SkillDetailPanelProps
}.

Definition renderDefaultCard : list nat := seq 0 36.

(** A provider with the given id, name and identifier, the other fields
    taken from [rest]. *)
Definition with_identity (id name skill_identifier : jsstring)
    (rest : SkillProvider.t) : SkillProvider.t :=
  {| SkillProvider.id := id;
     SkillProvider.name := name;
     SkillProvider.skill_identifier := skill_identifier;
     SkillProvider.description := SkillProvider.description rest;
     SkillProvider.icon := SkillProvider.icon rest;
     SkillProvider.source_type := SkillProvider.source_type rest;
     SkillProvider.source_url := SkillProvider.source_url rest;
     SkillProvider.version := SkillProvider.version rest;
     SkillProvider.author := SkillProvider.author rest;
     SkillProvider.has_scripts := SkillProvider.has_scripts rest;
     SkillProvider.enabled := SkillProvider.enabled rest;
     SkillProvider.created_at := SkillProvider.created_at rest;
     SkillProvider.updated_at := SkillProvider.updated_at rest |}.

(** Sample data: the provider the component's tests build, under two
    identities, and a lower-casing that covers Basic Latin. *)
Definition sample_provider : SkillProvider.t :=
  {| SkillProvider.id := lit "skill-1";
     SkillProvider.name := lit "Test Skill";
     SkillProvider.skill_identifier := lit "test-skill";
     SkillProvider.description := lit "A test skill for unit testing";
     SkillProvider.icon := Some (IconObject (lit "#6366f1") [55356; 57263]%N);
     SkillProvider.source_type := source_git;
     SkillProvider.source_url := Some (lit "https://github.com/test/skill");
     SkillProvider.version := lit "1.0.0";
     SkillProvider.author := Some (lit "Test Author");
     SkillProvider.has_scripts := true;
     SkillProvider.enabled := true;
     SkillProvider.created_at := lit "2024-01-01T00:00:00Z";
     SkillProvider.updated_at := None |}.

Definition sample_alpha : SkillProvider.t :=
  with_identity (lit "s1") (lit "Alpha") (lit "alpha") sample_provider.

Definition sample_beta : SkillProvider.t :=
  with_identity (lit "s2") (lit "Beta") (lit "beta") sample_provider.

Definition ascii_toLowerCase (s : jsstring) : jsstring := lower_unit <$> s.

(** Modelled from ECMAScript: String.prototype.toLowerCase on text made
    of Basic Latin characters and the Greek letters U+0391 to U+03C9.
    Each capital goes to its small letter, except that a capital sigma
    goes to the final small sigma when it ends a word (Unicode
    Final_Sigma): a cased letter comes before it, case-ignorable
    characters skipped, and none comes after it.  Other code units are
    left as they are, so on other text this is not the engine's
    function. *)
Definition is_latin_capital (c : N) : bool := ((65 <=? c) && (c <=? 90))%N.

Definition is_greek_capital (c : N) : bool :=
  ((913 <=? c) && (c <=? 937) && negb (c =? 930))%N.

Definition is_cased (c : N) : bool :=
  (is_latin_capital c || (97 <=? c) && (c <=? 122)
   || is_greek_capital c || (945 <=? c) && (c <=? 969))%N.

(** Apostrophe, full stop, colon, circumflex and grave accent. *)
Definition is_case_ignorable (c : N) : bool :=
  ((c =? 39) || (c =? 46) || (c =? 58) || (c =? 94) || (c =? 96))%N.

Definition lower_letter (c : N) : N :=
  if is_latin_capital c || is_greek_capital c then (c + 32)%N else c.

Fixpoint cased_next (s : jsstring) : bool :=
  match s with
  | [] => false
  | c :: s' => if is_case_ignorable c then cased_next s' else is_cased c
  end.

(** [before] is the text already passed, last character first. *)
Fixpoint lower_from (before s : jsstring) : jsstring :=
  match s with
  | [] => []
  | c :: s' =>
    (if (c =? 931)%N && cased_next before && negb (cased_next s') then 962%N
     else lower_letter c) :: lower_from (c :: before) s'
  end.

Definition engine_toLowerCase (s : jsstring) : jsstring := lower_from [] s.





Section Component.
(** String.prototype.toLowerCase, the engine's Unicode lower-casing. *)
Variable toLowerCase : jsstring → jsstring.

Definition filteredList (list : SkillProviders) (searchText : jsstring)
  : SkillProviders :=
  List.filter (λ provider,
    if truthy searchText then
      includes (toLowerCase (SkillProvider.name provider)) (toLowerCase searchText)
      || includes (toLowerCase (SkillProvider.skill_identifier provider))
                  (toLowerCase searchText)
    else true) list.

(** [provider.id === currentProviderID], the right side possibly undefined. *)
Definition currentProvider (list : SkillProviders)
    (currentProviderID : option jsstring) : option SkillProvider.t :=
  List.find (λ provider,
    bool_decide (Some (SkillProvider.id provider) = currentProviderID)) list.

(** One render, from the query result ([data], undefined until loaded),
    the prop and the state cell. *)
Definition render (data : option SkillProviders) (searchText : jsstring)
    (currentProviderID : option jsstring) : View :=
  let list := default [] data in
  let current := currentProvider list currentProviderID in
  {| cards := (λ provider,
       {| key := SkillProvider.id provider;
          data := provider;
          card_currentProvider := current |}) <$> filteredList list searchText;
     defaultCards := if bool_decide (length list = 0) then renderDefaultCard else [];
     detailPanel := (λ p, {| detail := p |}) <$> current |}.



(** Filtering as a relation: [r] is exactly the elements of [l] that
    satisfy [P], in the order [l] has them. *)
Inductive exactly_those (P : SkillProvider.t → Prop)
  : SkillProviders → SkillProviders → Prop :=
  | exactly_nil : exactly_those P [] []
  | exactly_keep x l r : P x → exactly_those P l r → exactly_those P (x :: l) (x :: r)
  | exactly_drop x l r : ¬ P x → exactly_those P l r → exactly_those P (x :: l) r.
End Component.

End SkillList.

(** ** web/app/components/tools/skill/modal.tsx *)

Module SkillModal.

Inductive TabType := git | upload.

(** The [useState] cells of the component. *)
Record State := mk {
  activeTab : TabType;
  isLoading : bool;
  gitUrl : jsstring;
  gitBranch : jsstring;
  name : jsstring;
  file : option File.t
}.

(** The cells at mount. *)
Definition initial : State :=
  {| activeTab := git; isLoading := false; gitUrl := []; gitBranch := lit "main";
     name := []; file := None |}.

Definition setActiveTab (v : TabType) (st : State) : State :=
  {| activeTab := v; isLoading := isLoading st; gitUrl := gitUrl st;
     gitBranch := gitBranch st; name := name st; file := file st |}.

Definition setIsLoading (v : bool) (st : State) : State :=
  {| activeTab := activeTab st; isLoading := v; gitUrl := gitUrl st;
     gitBranch := gitBranch st; name := name st; file := file st |}.

Definition setGitUrl (v : jsstring) (st : State) : State :=
  {| activeTab := activeTab st; isLoading := isLoading st; gitUrl := v;
     gitBranch := gitBranch st; name := name st; file := file st |}.

Definition setGitBranch (v : jsstring) (st : State) : State :=
  {| activeTab := activeTab st; isLoading := isLoading st; gitUrl := gitUrl st;
     gitBranch := v; name := name st; file := file st |}.

Definition setName (v : jsstring) (st : State) : State :=
  {| activeTab := activeTab st; isLoading := isLoading st; gitUrl := gitUrl st;
     gitBranch := gitBranch st; name := v; file := file st |}.

Definition setFile (v : option File.t) (st : State) : State :=
  {| activeTab := activeTab st; isLoading := isLoading st; gitUrl := gitUrl st;
     gitBranch := gitBranch st; name := name st; file := v |}.

(** The display-name [Input] of each tab's form: both render
    [value={name}] and [onChange={e => setName(e.target.value)}]. *)
Definition displayName_value (tab : TabType) (st : State) : jsstring :=
  match tab with
  | git => name st
  | upload => name st
  end.

Definition displayName_onChange (tab : TabType) (value : jsstring) (st : State) : State :=
  match tab with
  | git => setName value st
  | upload => setName value st
  end.

(** What the state setters in a trace do to the cells. *)
Definition apply_event (e : Event) (st : State) : State :=
  match e with
  | SetIsLoading b => setIsLoading b st
  | SetFile f => setFile (Some f) st
  | _ => st
  end.

Section Handlers.
(** [t] of [useTranslation]. *)
Variable t : jsstring → jsstring.
Variable server : jsstring → Body → Outcome.

(** [handleSubmit], closed over the cells of the render that made it. *)
Definition handleSubmit (st : State) : Eff unit :=
  match activeTab st with
  | git =>
    if negb (truthy (trim (gitUrl st))) then
      emit (ToastNotify toast_error (t (lit "tools.skill.errors.gitUrlRequired")))
    else
      emit (SetIsLoading true) ;;
      r ← UseTools.installSkill server
            {| InstallPayload.source_type := source_git;
               InstallPayload.git_url := Some (trim (gitUrl st));
               InstallPayload.git_branch := Some (or_else (trim (gitBranch st)) (lit "main"));
               InstallPayload.path := None;
               InstallPayload.name := or_undefined (trim (name st)) |};
      match r with
      | Resolved provider =>
        UseTools.useInvalidateSkillProviders ;;
        emit (ToastNotify toast_success (t (lit "tools.skill.installSuccess"))) ;;
        emit (OnConfirm provider) ;;
        emit OnHide
      | Rejected error =>
        emit (ToastNotify toast_error
                (opt_or_else (message error) (t (lit "tools.skill.errors.installFailed"))))
      end ;;
      emit (SetIsLoading false)
  | upload =>
    match file st with
    | None =>
      emit (ToastNotify toast_error (t (lit "tools.skill.errors.fileRequired")))
    | Some file =>
      emit (SetIsLoading true) ;;
      r ← UseTools.uploadSkill server
            {| UploadPayload.file := file;
               UploadPayload.name := or_undefined (trim (name st)) |};
      match r with
      | Resolved provider =>
        UseTools.useInvalidateSkillProviders ;;
        emit (ToastNotify toast_success (t (lit "tools.skill.installSuccess"))) ;;
        emit (OnConfirm provider) ;;
        emit OnHide
      | Rejected error =>
        emit (ToastNotify toast_error
                (opt_or_else (message error) (t (lit "tools.skill.errors.uploadFailed"))))
      end ;;
      emit (SetIsLoading false)
    end
  end.

(** [handleFileChange] on [e.target.files], null when the input has none. *)
Definition handleFileChange (files : option (list File.t)) : Eff unit :=
  let selectedFile := files ≫= head in
  match selectedFile with
  | Some selectedFile =>
    if negb (endsWith (File.name selectedFile) (lit ".zip")) then
      emit (ToastNotify toast_error (t (lit "tools.skill.errors.invalidFileType")))
    else
      emit (SetFile selectedFile)
  | None => mret ()
  end.
End Handlers.

(** The tab and the form fields of two states agree. *)
Definition same_fields (a b : State) : Prop :=
  activeTab a = activeTab b ∧ gitUrl a = gitUrl b ∧ gitBranch a = gitBranch b
  ∧ name a = name b ∧ file a = file b.

(** Sample surroundings: a translation that returns its key, a server
    that accepts everything, one that refuses everything, and the cells
    after some typing. *)
Definition sample_t (key : jsstring) : jsstring := key.

Definition server_resolves (url : jsstring) (body : Body) : Outcome :=
  Resolved SkillList.sample_provider.

Definition server_rejects (url : jsstring) (body : Body) : Outcome :=
  Rejected {| message := Some (lit "clone failed") |}.

Definition sample_zip : File.t := {| File.name := lit "skill.zip"; File.bytes := [80; 75; 3; 4]%N |}.

Definition sample_txt : File.t := {| File.name := lit "notes.txt"; File.bytes := [104; 105]%N |}.

Definition typed_git : State :=
  setName (lit " My Skill ") (setGitBranch (lit "  ") (setGitUrl (lit " https://x/y ") initial)).

Definition typed_blank_url : State := setGitUrl (lit "   ") initial.

Definition picked_upload : State :=
  setFile (Some sample_zip) (setActiveTab upload initial).

Definition empty_upload : State := setActiveTab upload initial.

End SkillModal.

(** ** The create card, owner of the modal *)

Module NewSkillCard.

(** [showModal] after an event: the card passes
    [onHide={() => setShowModal(false)}] to the modal. *)
Definition apply_event (e : Event) (showModal : bool) : bool :=
  match e with
  | OnHide => false
  | _ => showModal
  end.

(** The card with its modal.  The modal is rendered only while
    [showModal]: once that is false React has unmounted it and its cells
    are gone, so [skillModal] means the modal's cells only in a world
    whose [showModal] is true. *)
Record World := {
  showModal : bool;
  skillModal : SkillModal.State
}.

Definition step (w : World) (e : Event) : World :=
  {| showModal := apply_event e (showModal w);
     skillModal := SkillModal.apply_event e (skillModal w) |}.

Definition run (tr : list Event) (w : World) : World := foldl step w tr.

End NewSkillCard.

(** ** What a request carries *)

Definition form_get (field : jsstring) (entries : list (jsstring * FormValue))
  : option FormValue :=
  snd <$> List.find (λ e, bool_decide (e.1 = field)) entries.

(** The [name] a request body carries, if any. *)
Definition sent_name (body : Body) : option jsstring :=
  match body with
  | JsonBody payload => InstallPayload.name payload
  | FormData entries =>
    match form_get (lit "name") entries with
    | Some (FormString s) => Some s
    | _ => None
    end
  end.

Definition is_resolved (e : Event) : bool :=
  match e with Settled (Resolved _) => true | _ => false end.

(** ** The queries and mutations of web/service/use-tools.ts *)

Module Queries.
Import UseTools.

(** The [type] of [useRAGRecommendedPlugins]. *)
Inductive RAGType := rag_tool | rag_datasource | rag_all.

Definition RAGType_value (type : RAGType) : jsstring :=
  match type with
  | rag_tool => lit "tool"
  | rag_datasource => lit "datasource"
  | rag_all => lit "all"
  end.

(** The [useQuery] hooks of the file whose key is made of strings, each
    with the argument that scopes it; [useRAGRecommendedPlugins] with its
    argument after the default has been applied. *)
Inductive Query :=
  | useAllToolProviders
  | useAllBuiltInTools
  | useAllCustomTools
  | useAllWorkflowTools
  | useAllMCPTools
  | useAllSkillTools
  | useMCPTools (providerID : jsstring)
  | useMCPServerDetail (appID : jsstring)
  | useSkillProviders
  | useSkillProviderDetail (providerId : jsstring)
  | useBuiltinProviderInfo (providerName : jsstring)
  | useBuiltinTools (providerName : jsstring)
  | useRAGRecommendedPlugins (type : RAGType).

Definition useRAGRecommendedPluginListKey : QueryKey :=
  [NAME_SPACE; lit "rag-recommended-plugins"].

(** The [queryKey] each hook passes to [useQuery]. *)
Definition queryKey (q : Query) : QueryKey :=
  match q with
  | useAllToolProviders => useAllToolProvidersKey
  | useAllBuiltInTools => useAllBuiltInToolsKey
  | useAllCustomTools => useAllCustomToolsKey
  | useAllWorkflowTools => useAllWorkflowToolsKey
  | useAllMCPTools => useAllMCPToolsKey
  | useAllSkillTools => useAllSkillToolsKey
  | useMCPTools providerID => [NAME_SPACE; lit "get-MCP-provider-tool"; providerID]
  | useMCPServerDetail appID => [NAME_SPACE; lit "MCPServerDetail"; appID]
  | useSkillProviders => [NAME_SPACE; lit "skill-providers"]
  | useSkillProviderDetail providerId => [NAME_SPACE; lit "skill-provider-detail"; providerId]
  | useBuiltinProviderInfo providerName =>
    [NAME_SPACE; lit "builtin-provider-info"; providerName]
  | useBuiltinTools providerName =>
    [NAME_SPACE; lit "builtin-provider-tools"; providerName]
  | useRAGRecommendedPlugins type =>
    useRAGRecommendedPluginListKey ++ [RAGType_value type]
  end.

(** [useRAGRecommendedPlugins(type = 'all')]: the query a call stands for. *)
Definition RAGRecommendedPlugins_call (type : option RAGType) : Query :=
  useRAGRecommendedPlugins (default rag_all type).

(** What a [queryFn] asks [get] for: the URL and the [params]. *)
Record Fetch := {
  fetch_url : jsstring;
  fetch_params : list (jsstring * jsstring)
}.

(** The [queryFn] of each query hook. *)
Definition queryFn (q : Query) : Fetch :=
  match q with
  | useAllToolProviders =>
    {| fetch_url := lit "/workspaces/current/tool-providers"; fetch_params := [] |}
  | useAllBuiltInTools =>
    {| fetch_url := lit "/workspaces/current/tools/builtin"; fetch_params := [] |}
  | useAllCustomTools =>
    {| fetch_url := lit "/workspaces/current/tools/api"; fetch_params := [] |}
  | useAllWorkflowTools =>
    {| fetch_url := lit "/workspaces/current/tools/workflow"; fetch_params := [] |}
  | useAllMCPTools =>
    {| fetch_url := lit "/workspaces/current/tools/mcp"; fetch_params := [] |}
  | useAllSkillTools =>
    {| fetch_url := lit "/workspaces/current/tools/skill"; fetch_params := [] |}
  | useMCPTools providerID =>
    {| fetch_url := lit "/workspaces/current/tool-provider/mcp/tools/" ++ providerID;
       fetch_params := [] |}
  | useMCPServerDetail appID =>
    {| fetch_url := lit "/apps/" ++ appID ++ lit "/server"; fetch_params := [] |}
  | useSkillProviders =>
    {| fetch_url := lit "/workspaces/current/tool-provider/skill/list"; fetch_params := [] |}
  | useSkillProviderDetail providerId =>
    {| fetch_url := lit "/workspaces/current/tool-provider/skill/" ++ providerId;
       fetch_params := [] |}
  | useBuiltinProviderInfo providerName =>
    {| fetch_url := lit "/workspaces/current/tool-provider/builtin/" ++ providerName
                    ++ lit "/info";
       fetch_params := [] |}
  | useBuiltinTools providerName =>
    {| fetch_url := lit "/workspaces/current/tool-provider/builtin/" ++ providerName
                    ++ lit "/tools";
       fetch_params := [] |}
  | useRAGRecommendedPlugins type =>
    {| fetch_url := lit "/rag/pipelines/recommended-plugins";
       fetch_params := [(lit "type", RAGType_value type)] |}
  end.

(** The invalidate hooks that call [queryClient.invalidateQueries]
    themselves. *)
Definition useInvalidateMCPTools (providerID : jsstring) : Eff unit :=
  emit (InvalidateQueries [NAME_SPACE; lit "get-MCP-provider-tool"; providerID]).

Definition useInvalidateMCPServerDetail (appID : jsstring) : Eff unit :=
  emit (InvalidateQueries [NAME_SPACE; lit "MCPServerDetail"; appID]).

Definition useInvalidateSkillProviderDetail (providerId : jsstring) : Eff unit :=
  emit (InvalidateQueries [NAME_SPACE; lit "skill-provider-detail"; providerId]).

Definition useInvalidateBuiltinProviderInfo (providerName : jsstring) : Eff unit :=
  emit (InvalidateQueries [NAME_SPACE; lit "builtin-provider-info"; providerName]).

Definition useInvalidateRAGRecommendedPlugins (type : option RAGType) : Eff unit :=
  emit (InvalidateQueries
          (useRAGRecommendedPluginListKey ++ [RAGType_value (default rag_all type)])).

Definition useInvalidateAllToolProviders : Eff unit :=
  useInvalid (Some useAllToolProvidersKey).

(** The invalidate hook the file pairs with each query hook;
    [useBuiltinTools] has none. *)
Definition invalidate (q : Query) : option (Eff unit) :=
  match q with
  | useAllToolProviders => Some useInvalidateAllToolProviders
  | useAllBuiltInTools => Some useInvalidateAllBuiltInTools
  | useAllCustomTools => Some useInvalidateAllCustomTools
  | useAllWorkflowTools => Some useInvalidateAllWorkflowTools
  | useAllMCPTools => Some useInvalidateAllMCPTools
  | useAllSkillTools => Some useInvalidateAllSkillTools
  | useMCPTools providerID => Some (useInvalidateMCPTools providerID)
  | useMCPServerDetail appID => Some (useInvalidateMCPServerDetail appID)
  | useSkillProviders => Some useInvalidateSkillProviders
  | useSkillProviderDetail providerId => Some (useInvalidateSkillProviderDetail providerId)
  | useBuiltinProviderInfo providerName =>
    Some (useInvalidateBuiltinProviderInfo providerName)
  | useBuiltinTools _ => None
  | useRAGRecommendedPlugins type => Some (useInvalidateRAGRecommendedPlugins (Some type))
  end.

(** The listing hook behind each entry of [useInvalidToolsKeyMap]. *)
Definition listing (c : CollectionType) : Query :=
  match c with
  | builtIn => useAllBuiltInTools
  | custom => useAllCustomTools
  | workflow => useAllWorkflowTools
  | mcp => useAllMCPTools
  | skill => useAllSkillTools
  end.

(** The [useMutation] hooks of the file. *)
Inductive Mutation :=
  | useCreateMCP
  | useUpdateMCP
  | useDeleteMCP
  | useAuthorizeMCP
  | useUpdateMCPAuthorizationToken
  | useUpdateMCPTools
  | useCreateMCPServer
  | useUpdateMCPServer
  | useRefreshMCPServerCode
  | useInstallSkill
  | useUploadSkill
  | useDeleteSkill
  | useValidateSkill
  | useUpdateProviderCredentials
  | useRemoveProviderCredentials
  | useUpdateTriggerStatus.

(** The [mutationKey] of each; [useUpdateMCPTools] passes none. *)
Definition mutationKey (m : Mutation) : option QueryKey :=
  match m with
  | useCreateMCP => Some [NAME_SPACE; lit "create-mcp"]
  | useUpdateMCP => Some [NAME_SPACE; lit "update-mcp"]
  | useDeleteMCP => Some [NAME_SPACE; lit "delete-mcp"]
  | useAuthorizeMCP => Some [NAME_SPACE; lit "authorize-mcp"]
  | useUpdateMCPAuthorizationToken => Some [NAME_SPACE; lit "refresh-mcp-server-code"]
  | useUpdateMCPTools => None
  | useCreateMCPServer => Some [NAME_SPACE; lit "create-mcp-server"]
  | useUpdateMCPServer => Some [NAME_SPACE; lit "update-mcp-server"]
  | useRefreshMCPServerCode => Some [NAME_SPACE; lit "refresh-mcp-server-code"]
  | useInstallSkill => Some [NAME_SPACE; lit "install-skill"]
  | useUploadSkill => Some [NAME_SPACE; lit "upload-skill"]
  | useDeleteSkill => Some [NAME_SPACE; lit "delete-skill"]
  | useValidateSkill => Some [NAME_SPACE; lit "validate-skill"]
  | useUpdateProviderCredentials => Some [NAME_SPACE; lit "update-provider-credentials"]
  | useRemoveProviderCredentials => Some [NAME_SPACE; lit "remove-provider-credentials"]
  | useUpdateTriggerStatus => Some [NAME_SPACE; lit "update-trigger-status"]
  end.

End Queries.

(** ** web/app/components/tools/skill/provider-card.tsx *)

Module SkillCard.

(** [currentProvider?.id === data.id], the test that gives the card its
    selected border. *)
Definition selected (props : SkillList.SkillCardProps) : bool :=
  match SkillList.card_currentProvider props with
  | Some current =>
    bool_decide (SkillProvider.id current = SkillProvider.id (SkillList.data props))
  | None => false
  end.

(** The card's [onClick]: [handleSelect(data.id)]. *)
Definition onClick (props : SkillList.SkillCardProps) : jsstring :=
  SkillProvider.id (SkillList.data props).

(** What [del] settles to. *)
Inductive DeleteOutcome :=
  | Deleted
  | DeleteRejected (error : Thrown).

(** The effects of the card: those it shares with the other components,
    its own state setters, the delete request and the [onDeleted] prop. *)
Inductive CardEvent :=
  | Shared (e : Event)
  | SetDeleting (b : bool)
  | SetShowDeleteConfirm (b : bool)
  | Del (url : jsstring)
  | DelSettled (o : DeleteOutcome)
  | OnDeleted.

(** An async function without a [try]: its trace, and either the value it
    throws, at which it stops, or its result. *)
Definition Async (A : Type) : Type := list CardEvent * (Thrown + A).

#[global] Instance Async_ret : MRet Async := λ A a, ([], inr a).
#[global] Instance Async_bind : MBind Async :=
  λ A B f m,
    match m with
    | (tr1, inl thrown) => (tr1, inl thrown)
    | (tr1, inr a) => let '(tr2, r) := f a in (tr1 ++ tr2, r)
    end.

Definition emit_card (e : CardEvent) : Async unit := ([e], inr ()).

Definition lift {A} (m : Eff A) : Async A := (Shared <$> m.1, inr m.2).

(** The [useBoolean] cells and [isOperationShow]. *)
Record State := {
  isOperationShow : bool;
  isShowDeleteConfirm : bool;
  deleting : bool
}.

Definition apply_event (e : CardEvent) (st : State) : State :=
  match e with
  | SetDeleting b =>
    {| isOperationShow := isOperationShow st;
       isShowDeleteConfirm := isShowDeleteConfirm st;
       deleting := b |}
  | SetShowDeleteConfirm b =>
    {| isOperationShow := isOperationShow st;
       isShowDeleteConfirm := b;
       deleting := deleting st |}
  | _ => st
  end.

Definition replay (tr : list CardEvent) (st : State) : State :=
  foldl (λ st e, apply_event e st) st tr.

Definition is_del (e : CardEvent) : bool :=
  match e with Del _ => true | _ => false end.

Definition is_on_deleted (e : CardEvent) : bool :=
  match e with OnDeleted => true | _ => false end.

Definition is_shared_invalidate (e : CardEvent) : bool :=
  match e with
  | Shared (InvalidateQueries _) | Shared (InvalidateNonKey _) => true
  | _ => false
  end.

Section Handlers.
Variable server : jsstring → DeleteOutcome.

(** [await del(url)]. *)
Definition del (url : jsstring) : Async unit :=
  let o := server url in
  ([Del url; DelSettled o],
   match o with
   | Deleted => inr ()
   | DeleteRejected error => inl error
   end).

(** [mutateAsync] of [useDeleteSkill({ onSuccess })]: the request, then
    [onSuccess] when it went through. *)
Definition deleteSkill (onSuccess : Async unit) (providerId : jsstring) : Async unit :=
  del (lit "/workspaces/current/tool-provider/skill/" ++ providerId) ;;
  onSuccess.

Definition handleDelete (data : SkillProvider.t) : Async unit :=
  emit_card (SetDeleting true) ;;
  deleteSkill (lift UseTools.useInvalidateSkillProviders) (SkillProvider.id data) ;;
  emit_card (SetDeleting false) ;;
  emit_card (SetShowDeleteConfirm false) ;;
  emit_card OnDeleted.
End Handlers.

#[global] Instance DeleteOutcome_eq_dec : EqDecision DeleteOutcome.
Proof. solve_decision. Defined.
#[global] Instance CardEvent_eq_dec : EqDecision CardEvent.
Proof. solve_decision. Defined.

(** Sample servers and a card whose delete dialog is open. *)
Definition server_deletes (url : jsstring) : DeleteOutcome := Deleted.

Definition server_refuses (url : jsstring) : DeleteOutcome :=
  DeleteRejected {| message := Some (lit "in use") |}.

Definition confirming : State :=
  {| isOperationShow := false; isShowDeleteConfirm := true; deleting := false |}.

End SkillCard.

(** ** The state of [SkillList] and its handlers *)

Module SkillListState.

(** The result of [useSkillProviders] and the [currentProviderID] cell. *)
Record State := {
  data : option SkillList.SkillProviders;
  currentProviderID : option jsstring
}.

(** A sample page: Alpha and Beta loaded, nothing selected. *)
Definition sample_page : State :=
  {| data := Some [SkillList.sample_alpha; SkillList.sample_beta];
     currentProviderID := None |}.

(** [handleSelect] of the cards. *)
Definition setCurrentProviderID (v : option jsstring) (st : State) : State :=
  {| data := data st; currentProviderID := v |}.

(** [onHide] of the detail panel. *)
Definition onHide (st : State) : State := setCurrentProviderID None st.

(** [refetch], with what the query holds afterwards. *)
Definition refetch (refetched : option SkillList.SkillProviders) (st : State) : State :=
  {| data := refetched; currentProviderID := currentProviderID st |}.

(** [handleCreate]: [await refetch()], then select the new provider. *)
Definition handleCreate (refetched : option SkillList.SkillProviders)
    (provider : SkillProvider.t) (st : State) : State :=
  setCurrentProviderID (Some (SkillProvider.id provider)) (refetch refetched st).

(** The list under the effects of the install modal: the create card
    hands [onConfirm] to [handleCreate]. *)
Definition apply_event (refetched : option SkillList.SkillProviders)
    (e : Event) (st : State) : State :=
  match e with
  | OnConfirm provider => handleCreate refetched provider st
  | _ => st
  end.

Definition replay (refetched : option SkillList.SkillProviders)
    (tr : list Event) (st : State) : State :=
  foldl (λ st e, apply_event refetched e st) st tr.

Section Component.
Variable toLowerCase : jsstring → jsstring.

Definition view (searchText : jsstring) (st : State) : SkillList.View :=
  SkillList.render toLowerCase (data st) searchText (currentProviderID st).
End Component.

End SkillListState.

(** ** A session with the install modal *)

Module SkillModalSession.
Import SkillModal.

(** What the user can do while the modal is shown. *)
Inductive Action :=
  | ClickTab (tab : TabType)
  | TypeGitUrl (value : jsstring)
  | TypeGitBranch (value : jsstring)
  | TypeName (value : jsstring)
  | PickFiles (files : option (list File.t))
  | ClickInstall.

(** The two checks [handleSubmit] makes before it sends anything. *)
Definition passes_validation (st : State) : bool :=
  match activeTab st with
  | git => truthy (trim (gitUrl st))
  | upload => bool_decide (is_Some (file st))
  end.

(** The selected file, if any, has a name ending in [.zip]. *)
Definition zip_or_none (st : State) : Prop :=
  match file st with
  | Some f => lit ".zip" `suffix_of` File.name f
  | None => True
  end.

Definition is_any_toast (e : Event) : bool :=
  match e with ToastNotify _ _ => true | _ => false end.

Section Handlers.
Variable t : jsstring → jsstring.
Variable server : jsstring → Body → Outcome.

Definition replay (tr : list Event) (st : State) : State :=
  foldl (λ st e, apply_event e st) st tr.

(** One action: the handler the element is wired to, run on the cells;
    the install button is disabled while [isLoading]. *)
Definition act (a : Action) (st : State) : State :=
  match a with
  | ClickTab tab => setActiveTab tab st
  | TypeGitUrl value => setGitUrl value st
  | TypeGitBranch value => setGitBranch value st
  | TypeName value => displayName_onChange (activeTab st) value st
  | PickFiles files => replay (trace (handleFileChange t files)) st
  | ClickInstall =>
    if isLoading st then st else replay (trace (handleSubmit t server st)) st
  end.

Definition session (actions : list Action) (st : State) : State :=
  foldl (λ st a, act a st) st actions.
End Handlers.

End SkillModalSession.

(** ** What each role can reach *)

Module NewSkillCardView.

(** Clicking the card, and the modal's [onHide]. *)
Inductive Action := ClickCard | HideModal.

Section Component.
(** [isCurrentWorkspaceManager] of [useAppContext]. *)
Variable isCurrentWorkspaceManager : bool.

(** The element an action needs is in the render: the card only for a
    workspace manager, the modal only while [showModal]. *)
Definition rendered (showModal : bool) (a : Action) : bool :=
  match a with
  | ClickCard => isCurrentWorkspaceManager
  | HideModal => showModal
  end.

Definition act (a : Action) (showModal : bool) : bool :=
  if rendered showModal a then
    match a with
    | ClickCard => true
    | HideModal => false
    end
  else showModal.

Definition session (actions : list Action) (showModal : bool) : bool :=
  foldl (λ showModal a, act a showModal) showModal actions.
End Component.

End NewSkillCardView.

Module SkillCardView.
Import SkillCard.

(** Clicking the card, the dropdown's open change and remove entry, and
    the two buttons of the delete dialog. *)
Inductive Action :=
  | ClickCard
  | OpenChange (open : bool)
  | Remove
  | CancelDelete
  | ConfirmDelete.

Definition initial : State :=
  {| isOperationShow := false; isShowDeleteConfirm := false; deleting := false |}.

Section Component.
Variable isCurrentWorkspaceManager : bool.
Variable server : jsstring → DeleteOutcome.
Variable data : SkillProvider.t.

(** The dropdown is rendered only for a workspace manager, the dialog
    only while [isShowDeleteConfirm]. *)
Definition rendered (st : State) (a : Action) : bool :=
  match a with
  | ClickCard => true
  | OpenChange _ | Remove => isCurrentWorkspaceManager
  | CancelDelete | ConfirmDelete => isShowDeleteConfirm st
  end.

(** One action: the state after it and the effects it had. *)
Definition act (a : Action) (st : State) : State * list CardEvent :=
  if rendered st a then
    match a with
    | ClickCard => (st, [])
    | OpenChange open =>
      ({| isOperationShow := open;
          isShowDeleteConfirm := isShowDeleteConfirm st;
          deleting := deleting st |}, [])
    | Remove => (apply_event (SetShowDeleteConfirm true) st, [])
    | CancelDelete => (apply_event (SetShowDeleteConfirm false) st, [])
    | ConfirmDelete =>
      let tr := (handleDelete server data).1 in (SkillCard.replay tr st, tr)
    end
  else (st, []).

Definition session (actions : list Action) (st : State) : State * list CardEvent :=
  foldl (λ acc a, let '(st', tr) := act a acc.1 in (st', acc.2 ++ tr)) (st, []) actions.
End Component.

End SkillCardView.

(** * Facts about the string primitives *)

Module JsFacts.

Lemma trimStart_blank s : blank s → trimStart s = [].
Proof.
  induction 1 as [|c s Hc _ IH]; simpl; [done|]. by rewrite Hc.
Qed.

Lemma trimStart_nil_blank s : trimStart s = [] → blank s.
Proof.
  induction s as [|c s IH]; simpl; [constructor|].
  destruct (isWhiteSpace c) eqn:Hc; [|done].
  intros H. constructor; [done | by apply IH].
Qed.

Lemma trim_blank s : blank s → trim s = [].
Proof.
  intros H. unfold trim, trimEnd. by rewrite (trimStart_blank s H).
Qed.

Lemma trimStart_dropped s : ∃ ws, blank ws ∧ s = ws ++ trimStart s.
Proof.
  induction s as [|c s (ws & Hws & IH)]; simpl.
  - exists []. split; [constructor | done].
  - destruct (isWhiteSpace c) eqn:Hc.
    + exists (c :: ws). split; [by constructor|]. simpl. by f_equal.
    + exists []. split; [constructor | done].
Qed.

Lemma trimStart_head s c : head (trimStart s) = Some c → isWhiteSpace c = false.
Proof.
  induction s as [|d s IH]; simpl; [done|].
  destruct (isWhiteSpace d) eqn:Hd; [done|]. simpl. by intros [= <-].
Qed.

Lemma trimEnd_dropped s : ∃ ws, blank ws ∧ s = trimEnd s ++ ws.
Proof.
  unfold trimEnd. destruct (trimStart_dropped (reverse s)) as (ws & Hws & Hs).
  exists (reverse ws). split.
  - unfold blank. by rewrite Forall_reverse.
  - rewrite <- reverse_app, <- Hs. by rewrite reverse_involutive.
Qed.

Lemma trimEnd_last s c : last (trimEnd s) = Some c → isWhiteSpace c = false.
Proof.
  unfold trimEnd. rewrite last_reverse. apply trimStart_head.
Qed.

(** [trim] removes a blank prefix and a blank suffix, and what is left
    neither starts nor ends with white space. *)
Lemma trim_spec s :
  (∃ pre post, blank pre ∧ blank post ∧ s = pre ++ trim s ++ post)
  ∧ (∀ c, head (trim s) = Some c → isWhiteSpace c = false)
  ∧ (∀ c, last (trim s) = Some c → isWhiteSpace c = false).
Proof.
  unfold trim.
  destruct (trimStart_dropped s) as (pre & Hpre & Hs).
  destruct (trimEnd_dropped (trimStart s)) as (post & Hpost & Ht).
  split; [|split].
  - exists pre, post. split; [done|]. split; [done|]. by rewrite <- Ht.
  - intros c Hc. apply (trimStart_head s).
    rewrite Ht. by destruct (trimEnd (trimStart s)).
  - apply trimEnd_last.
Qed.

Lemma trim_nil_blank s : trim s = [] → blank s.
Proof.
  unfold trim, trimEnd. intros H.
  destruct (trimStart_dropped s) as (ws & Hws & Hs).
  assert (Hr : blank (reverse (trimStart s))).
  { apply trimStart_nil_blank.
    rewrite <- (reverse_involutive (trimStart (reverse (trimStart s)))).
    by rewrite H. }
  rewrite Hs. apply Forall_app. split; [done|].
  unfold blank in Hr. by rewrite Forall_reverse in Hr.
Qed.

Lemma truthy_trim_false s : truthy (trim s) = false ↔ blank s.
Proof.
  split.
  - intros H. apply trim_nil_blank. by destruct (trim s).
  - intros H. by rewrite trim_blank.
Qed.

Lemma startsWith_prefix s search :
  startsWith s search = true ↔ search `prefix_of` s.
Proof.
  revert s. induction search as [|p search IH]; intros s; simpl.
  - split; [intros _; apply prefix_nil | done].
  - destruct s as [|c s].
    + split; [done|]. intros [k Hk]. discriminate.
    + rewrite andb_true_iff, IH, N.eqb_eq. split.
      * intros [-> H]. by apply prefix_cons.
      * intros [k Hk]. simplify_eq/=. split; [done|]. by exists k.
Qed.

Lemma endsWith_suffix s search :
  endsWith s search = true ↔ search `suffix_of` s.
Proof.
  unfold endsWith. rewrite startsWith_prefix. symmetry. apply suffix_prefix_reverse.
Qed.

Lemma includes_infix s search :
  includes s search = true ↔ ∃ pre post, s = pre ++ search ++ post.
Proof.
  induction s as [|c s IH]; simpl.
  - rewrite orb_false_r, startsWith_prefix. split.
    + intros [k Hk]. by exists [], k.
    + intros (pre & post & H). symmetry in H.
      apply app_eq_nil in H as [-> H]. apply app_eq_nil in H as [-> ->].
      by exists [].
  - rewrite orb_true_iff, startsWith_prefix, IH. split.
    + intros [[k Hk] | (pre & post & ->)].
      * by exists [], k.
      * by exists (c :: pre), post.
    + intros ([|c' pre] & post & H).
      * left. by exists post.
      * right. simplify_eq/=. by exists pre, post.
Qed.

End JsFacts.

(** * Type-keyed invalidation *)

Module UseToolsFacts.
Import UseTools.

Section ByType.
Variable CollectionType_value : CollectionType → jsstring.
Variable Cache : Type.
Variable invalidateQueries : QueryKey → Cache → Cache.
Variable invalidateNonKey : jsstring → Cache → Cache.

Lemma useInvalidToolsKeyMap_unknown (type : jsstring) :
  type ∉ known_types CollectionType_value →
  useInvalidToolsKeyMap CollectionType_value !! type = None.
Proof.
  unfold known_types, useInvalidToolsKeyMap. intros H. simpl in H.
  repeat (rewrite lookup_insert_ne; [|intros <-; apply H; set_solver]).
  apply lookup_empty.
Qed.

Lemma useInvalidToolsKeyMap_skill :
  useInvalidToolsKeyMap CollectionType_value !! CollectionType_value skill
  = Some useAllSkillToolsKey.
Proof. unfold useInvalidToolsKeyMap. apply lookup_insert_eq. Qed.

(** X20: a type that is neither one of the five collection types nor a
    name every object inherits is not in the table: nothing is
    invalidated and the cache is left as it was. *)
Theorem useInvalidToolsByType_absent_noop (type : jsstring) :
  type ∉ known_types CollectionType_value →
  type ∉ Object_prototype_names →
  useInvalidToolsByType CollectionType_value (Some type) = mret ()
  ∧ ∀ cache, replay_cache Cache invalidateQueries invalidateNonKey
               (trace (useInvalidToolsByType CollectionType_value (Some type))) cache = cache.
Proof.
  intros H Hp.
  assert (E : useInvalidToolsByType CollectionType_value (Some type) = mret ()).
  { unfold useInvalidToolsByType, useInvalidToolsKeyMap_get.
    destruct (truthy type); [|done].
    rewrite (useInvalidToolsKeyMap_unknown type H).
    by rewrite bool_decide_eq_false_2. }
  rewrite E. by split.
Qed.

End ByType.

Lemma useInvalidToolsByType_absent_noop_witness :
  (lit "model" ∉ known_types sample_values)
  ∧ (lit "model" ∉ Object_prototype_names)
  ∧ useInvalidToolsByType sample_values (Some (lit "model")) = mret ()
  ∧ replay_cache (list QueryKey) sample_invalidate sample_invalidateNonKey
      (trace (useInvalidToolsByType sample_values (Some (lit "model")))) [] = [].
Proof.
  assert (H : lit "model" ∉ known_types sample_values).
  { apply (bool_decide_unpack _). vm_compute. exact I. }
  assert (Hp : lit "model" ∉ Object_prototype_names).
  { apply (bool_decide_unpack _). vm_compute. exact I. }
  destruct (useInvalidToolsByType_absent_noop sample_values (list QueryKey)
              sample_invalidate sample_invalidateNonKey (lit "model") H Hp) as (E & C).
  split; [exact H|]. split; [exact Hp|]. split; [exact E | exact (C [])].
Defined.


(** A known type reaches its own key: here the skill tools. *)
Example useInvalidToolsByType_skill :
  trace (useInvalidToolsByType sample_values (Some (lit "skill")))
  = [InvalidateQueries useAllSkillToolsKey].
Proof.
  unfold useInvalidToolsByType, useInvalidToolsKeyMap_get. simpl truthy. cbv iota.
  change (lit "skill") with (sample_values skill).
  by rewrite useInvalidToolsKeyMap_skill.
Qed.

End UseToolsFacts.

(** * The skill list *)

Module SkillListFacts.
Import SkillList JsFacts.

Section Component.
Variable toLowerCase : jsstring → jsstring.

(** On Basic Latin text the engine's lower-casing is the code-unit one. *)
Hypothesis toLowerCase_ascii :
  ∀ s, Forall (λ c, (c < 128)%N) s → toLowerCase s = lower_unit <$> s.







Lemma currentProvider_None list pid :
  Forall (λ p, SkillProvider.id p ≠ pid) list →
  currentProvider list (Some pid) = None.
Proof.
  unfold currentProvider. induction 1 as [|p list Hp _ IH]; simpl; [done|].
  rewrite bool_decide_eq_false_2; [done|]. by intros [= ?].
Qed.

(** C9: when the selected id is the id of no provider in the collection,
    the lookup of the current provider finds nothing and the render has no
    detail panel; [render] is a total function, so nothing is raised. *)
Theorem currentProvider_absent (data : option SkillProviders)
    (searchText pid : jsstring) :
  Forall (λ p, SkillProvider.id p ≠ pid) (default [] data) →
  currentProvider (default [] data) (Some pid) = None
  ∧ detailPanel (render toLowerCase data searchText (Some pid)) = None.
Proof.
  intros H. unfold render. simpl. by rewrite (currentProvider_None _ _ H).
Qed.

End Component.

Lemma exactly_those_functional P l r1 r2 :
  exactly_those P l r1 → exactly_those P l r2 → r1 = r2.
Proof.
  intros H1. revert r2. induction H1 as [|x l r Hx _ IH|x l r Hx _ IH]; intros r2 H2.
  - by inversion H2.
  - inversion H2; subst; [f_equal; by apply IH | done].
  - inversion H2; subst; [done | by apply IH].
Qed.

Lemma ascii_toLowerCase_ascii s :
  Forall (λ c, (c < 128)%N) s → ascii_toLowerCase s = lower_unit <$> s.
Proof. reflexivity. Qed.



(** The capital sigma that ends a word becomes the final small sigma,
    the one that stands alone the other small sigma. *)
Example engine_toLowerCase_sigma :
  engine_toLowerCase [913; 931]%N = [945; 962]%N
  ∧ engine_toLowerCase [931]%N = [963]%N.
Proof. split; reflexivity. Qed.



Lemma currentProvider_absent_witness :
  Forall (λ p, SkillProvider.id p ≠ lit "s3") (default [] (Some [sample_alpha; sample_beta]))
  ∧ detailPanel (render ascii_toLowerCase (Some [sample_alpha; sample_beta]) [] (Some (lit "s3")))
    = None.
Proof.
  assert (H : Forall (λ p, SkillProvider.id p ≠ lit "s3")
                (default [] (Some [sample_alpha; sample_beta]))).
  { apply (bool_decide_unpack _). vm_compute. exact I. }
  split; [exact H|].
  exact (proj2 (currentProvider_absent ascii_toLowerCase
                  (Some [sample_alpha; sample_beta]) [] (lit "s3") H)).
Defined.

End SkillListFacts.

(** * The install modal *)

Module SkillModalFacts.
Import SkillModal NewSkillCard JsFacts.

Lemma or_else_decide a b : or_else a b = if decide (a = []) then b else a.
Proof. by destruct a. Qed.

Lemma or_undefined_decide a :
  or_undefined a = if decide (a = []) then None else Some a.
Proof. by destruct a. Qed.

Lemma truthy_true_ne a : truthy a = true ↔ a ≠ [].
Proof. by destruct a. Qed.

Section Handlers.
Variable t : jsstring → jsstring.
Variable server : jsstring → Body → Outcome.

(** The six ways through [handleSubmit]: git or upload, each either
    stopped by validation, resolved or rejected. *)
Ltac submit_cases st :=
  unfold handleSubmit, UseTools.installSkill, UseTools.uploadSkill, UseTools.post;
  destruct st as [tab loading url branch nm fl]; simpl;
  destruct tab;
  [ destruct (truthy (trim url)) eqn:Hurl; simpl;
    [ match goal with
      | |- context [server ?u ?b] => destruct (server u b) eqn:Hsrv
      end; simpl
    | ]
  | destruct fl as [f|]; simpl;
    [ match goal with
      | |- context [server ?u ?b] => destruct (server u b) eqn:Hsrv
      end; simpl
    | ] ].

(** Membership in an explicit trace, by cases on the position. *)
Ltac in_trace H :=
  apply list_elem_of_In in H; simpl in H;
  repeat (destruct H as [H|H]; [try discriminate H|]); try contradiction.


(** C3: when the request of a submission is rejected, the trace is:
    loading on, the request, its rejection, an error toast with the
    thrown message or the fallback, loading off.  Nothing is
    invalidated, the confirm and the hide callbacks are not called, the
    modal stays as shown as it was, and the tab and the four fields keep
    their values. *)
Theorem handleSubmit_failure (st : State) (error : Thrown) :
  Settled (Rejected error) ∈ trace (handleSubmit t server st) →
  (∃ url body fallback,
     trace (handleSubmit t server st) =
       [SetIsLoading true; Post url body; Settled (Rejected error);
        ToastNotify toast_error (opt_or_else (message error) (t fallback));
        SetIsLoading false])
  ∧ count is_invalidate (trace (handleSubmit t server st)) = 0
  ∧ count is_on_confirm (trace (handleSubmit t server st)) = 0
  ∧ count is_on_hide (trace (handleSubmit t server st)) = 0
  ∧ ∀ w, showModal (run (trace (handleSubmit t server st)) w) = showModal w
         ∧ same_fields (skillModal (run (trace (handleSubmit t server st)) w))
                       (skillModal w).
Proof.
  submit_cases st; intros Hin; in_trace Hin.
  - injection Hin as ->. split; [eauto | done].
  - injection Hin as ->. split; [eauto | done].
Qed.

(** C5: a git-tab submission whose URL is not empty after trimming sends
    one request, to the install endpoint, whose payload has source type
    git, the trimmed URL, the trimmed branch or main when that is empty,
    and the trimmed display name or no name when that is empty; with a
    blank branch field the branch sent is main. *)
Theorem handleSubmit_git_payload (st : State) :
  activeTab st = git →
  trim (gitUrl st) ≠ [] →
  List.filter is_post (trace (handleSubmit t server st)) =
    [Post (lit "/workspaces/current/tool-provider/skill/install")
       (JsonBody
          {| InstallPayload.source_type := source_git;
             InstallPayload.git_url := Some (trim (gitUrl st));
             InstallPayload.git_branch :=
               Some (if decide (trim (gitBranch st) = []) then lit "main"
                     else trim (gitBranch st));
             InstallPayload.path := None;
             InstallPayload.name :=
               if decide (trim (name st) = []) then None
               else Some (trim (name st)) |})]
  ∧ (blank (gitBranch st) →
     ∃ payload,
       List.filter is_post (trace (handleSubmit t server st)) =
         [Post (lit "/workspaces/current/tool-provider/skill/install") (JsonBody payload)]
       ∧ InstallPayload.git_branch payload = Some (lit "main")).
Proof.
  submit_cases st; intros Htab Hne; try discriminate Htab;
    [| |by destruct (trim url)];
    rewrite !or_else_decide, !or_undefined_decide;
    (split; [done|]); intros Hb; eexists; (split; [done|]); simpl;
    by rewrite (trim_blank _ Hb).
Qed.

(** C6: a git-tab submission whose URL is empty or all white space shows
    one error toast and does nothing else: no request is sent, and the
    modal and its cells are as they were. *)
Theorem handleSubmit_git_blank_url (st : State) :
  activeTab st = git →
  blank (gitUrl st) →
  trace (handleSubmit t server st) =
    [ToastNotify toast_error (t (lit "tools.skill.errors.gitUrlRequired"))]
  ∧ count is_post (trace (handleSubmit t server st)) = 0
  ∧ ∀ w, run (trace (handleSubmit t server st)) w = w.
Proof.
  submit_cases st; intros Htab Hb; try discriminate Htab;
    apply truthy_trim_false in Hb; simpl in Hb; try congruence.
  split; [done|]. split; [done|]. by intros [].
Qed.

(** C7: picking a file whose name does not end in .zip shows one error
    toast and leaves the selected file, like every other cell, as it was. *)
Theorem handleFileChange_not_zip (selectedFile : File.t) (others : list File.t) :
  ¬ (lit ".zip" `suffix_of` File.name selectedFile) →
  trace (handleFileChange t (Some (selectedFile :: others))) =
    [ToastNotify toast_error (t (lit "tools.skill.errors.invalidFileType"))]
  ∧ ∀ w, file (skillModal (run (trace (handleFileChange t (Some (selectedFile :: others)))) w))
         = file (skillModal w)
         ∧ run (trace (handleFileChange t (Some (selectedFile :: others)))) w = w.
Proof.
  intros Hz. unfold handleFileChange. simpl.
  destruct (endsWith (File.name selectedFile) (lit ".zip")) eqn:He.
  - by apply endsWith_suffix in He.
  - simpl. split; [done|]. by intros [].
Qed.

(** C8: an upload-tab submission with no file selected sends no request;
    it shows one error toast. *)
Theorem handleSubmit_upload_no_file (st : State) :
  activeTab st = upload →
  file st = None →
  count is_post (trace (handleSubmit t server st)) = 0
  ∧ trace (handleSubmit t server st) =
      [ToastNotify toast_error (t (lit "tools.skill.errors.fileRequired"))].
Proof.
  submit_cases st; intros Htab Hf; by try discriminate.
Qed.

(** C10: the display name is one cell for both tabs.  After a name is
    typed into the name field of the tab then active, the name field of
    either tab shows it; a submission from the git tab, when the URL is
    not blank, sends the install request with that name trimmed, or with
    no name when that is empty; and a submission from the upload tab,
    when a file is selected, sends the upload request with that name
    trimmed under [name], or without that entry when it is empty. *)
Theorem displayName_shared (st : State) (value : jsstring) :
  (∀ tab, displayName_value tab (displayName_onChange (activeTab st) value st) = value)
  ∧ (trim (gitUrl st) ≠ [] →
     ∃ payload,
       List.filter is_post
         (trace (handleSubmit t server
                   (setActiveTab git (displayName_onChange (activeTab st) value st))))
       = [Post (lit "/workspaces/current/tool-provider/skill/install") (JsonBody payload)]
       ∧ InstallPayload.name payload
         = if decide (trim value = []) then None else Some (trim value))
  ∧ (∀ picked, file st = Some picked →
     ∃ entries,
       List.filter is_post
         (trace (handleSubmit t server
                   (setActiveTab upload (displayName_onChange (activeTab st) value st))))
       = [Post (lit "/workspaces/current/tool-provider/skill/upload") (FormData entries)]
       ∧ form_get (lit "name") entries
         = (if decide (trim value = []) then None else Some (FormString (trim value)))
       ∧ sent_name (FormData entries)
         = if decide (trim value = []) then None else Some (trim value)).
Proof.
  split; [|split].
  - intros tab. by destruct st as [[] ? ? ? ? ?], tab.
  - intros Hurl. apply truthy_true_ne in Hurl.
    assert (E : displayName_onChange (activeTab st) value st = setName value st)
      by (by destruct st as [[] ? ? ? ? ?]).
    rewrite E. clear E. rewrite <- or_undefined_decide.
    unfold handleSubmit, UseTools.installSkill, UseTools.post.
    destruct st as [tab0 loading url branch nm fl]; simpl in *. rewrite Hurl. simpl.
    match goal with
    | |- context [server ?u ?b] => destruct (server u b)
    end; simpl; eexists; (split; [reflexivity|]); reflexivity.
  - intros picked Hf.
    assert (E : displayName_onChange (activeTab st) value st = setName value st)
      by (by destruct st as [[] ? ? ? ? ?]).
    rewrite E. clear E.
    unfold handleSubmit, UseTools.uploadSkill, UseTools.post.
    destruct st as [tab0 loading url branch nm fl]; simpl in *. rewrite Hf. simpl.
    match goal with
    | |- context [server ?u ?b] => destruct (server u b)
    end; simpl; eexists; (split; [reflexivity|]);
      destruct (trim value); split; reflexivity.
Qed.

End Handlers.


Lemma handleSubmit_failure_witness :
  Settled (Rejected {| message := Some (lit "clone failed") |})
    ∈ trace (handleSubmit sample_t server_rejects picked_upload)
  ∧ count is_on_confirm (trace (handleSubmit sample_t server_rejects picked_upload)) = 0
  ∧ same_fields
      (skillModal (run (trace (handleSubmit sample_t server_rejects picked_upload))
                     {| showModal := true; skillModal := picked_upload |}))
      picked_upload.
Proof.
  assert (H : Settled (Rejected {| message := Some (lit "clone failed") |})
                ∈ trace (handleSubmit sample_t server_rejects picked_upload)).
  { apply (bool_decide_unpack _). vm_compute. exact I. }
  destruct (handleSubmit_failure sample_t server_rejects picked_upload _ H)
    as (_ & _ & C & _ & W).
  split; [exact H|]. split; [exact C|].
  exact (proj2 (W {| showModal := true; skillModal := picked_upload |})).
Defined.

Lemma handleSubmit_git_payload_witness :
  activeTab typed_git = git
  ∧ trim (gitUrl typed_git) ≠ []
  ∧ List.filter is_post (trace (handleSubmit sample_t server_resolves typed_git)) =
      [Post (lit "/workspaces/current/tool-provider/skill/install")
         (JsonBody
            {| InstallPayload.source_type := source_git;
               InstallPayload.git_url := Some (lit "https://x/y");
               InstallPayload.git_branch := Some (lit "main");
               InstallPayload.path := None;
               InstallPayload.name := Some (lit "My Skill") |})].
Proof.
  assert (Ht : activeTab typed_git = git) by reflexivity.
  assert (Hu : trim (gitUrl typed_git) ≠ []) by (vm_compute; discriminate).
  split; [exact Ht|]. split; [exact Hu|].
  exact (proj1 (handleSubmit_git_payload sample_t server_resolves typed_git Ht Hu)).
Defined.

Lemma handleSubmit_git_blank_url_witness :
  activeTab typed_blank_url = git
  ∧ blank (gitUrl typed_blank_url)
  ∧ count is_post (trace (handleSubmit sample_t server_resolves typed_blank_url)) = 0.
Proof.
  assert (Ht : activeTab typed_blank_url = git) by reflexivity.
  assert (Hb : blank (gitUrl typed_blank_url)).
  { apply (bool_decide_unpack _). vm_compute. exact I. }
  split; [exact Ht|]. split; [exact Hb|].
  exact (proj1 (proj2 (handleSubmit_git_blank_url sample_t server_resolves
                         typed_blank_url Ht Hb))).
Defined.

Lemma handleFileChange_not_zip_witness :
  ¬ (lit ".zip" `suffix_of` File.name sample_txt)
  ∧ file (skillModal (run (trace (handleFileChange sample_t (Some [sample_txt])))
                        {| showModal := true; skillModal := picked_upload |}))
    = Some sample_zip.
Proof.
  assert (H : ¬ (lit ".zip" `suffix_of` File.name sample_txt)).
  { apply (bool_decide_unpack _). vm_compute. exact I. }
  split; [exact H|].
  exact (proj1 (proj2 (handleFileChange_not_zip sample_t sample_txt [] H)
                  {| showModal := true; skillModal := picked_upload |})).
Defined.

Lemma handleSubmit_upload_no_file_witness :
  activeTab empty_upload = upload
  ∧ file empty_upload = None
  ∧ count is_post (trace (handleSubmit sample_t server_resolves empty_upload)) = 0.
Proof.
  assert (Ht : activeTab empty_upload = upload) by reflexivity.
  assert (Hf : file empty_upload = None) by reflexivity.
  split; [exact Ht|]. split; [exact Hf|].
  exact (proj1 (handleSubmit_upload_no_file sample_t server_resolves empty_upload Ht Hf)).
Defined.

(** A name typed on the upload tab travels with the install sent from the
    git tab, and a name typed on the git tab with the upload sent from
    the upload tab. *)
Lemma displayName_shared_witness :
  (trim (gitUrl (setActiveTab upload typed_git)) ≠ []
   ∧ ∃ payload,
       List.filter is_post
         (trace (handleSubmit sample_t server_resolves
                   (setActiveTab git
                      (displayName_onChange (activeTab (setActiveTab upload typed_git))
                         (lit " Other ") (setActiveTab upload typed_git)))))
       = [Post (lit "/workspaces/current/tool-provider/skill/install") (JsonBody payload)]
       ∧ InstallPayload.name payload = Some (lit "Other"))
  ∧ (file (setFile (Some sample_zip) initial) = Some sample_zip
     ∧ ∃ entries,
         List.filter is_post
           (trace (handleSubmit sample_t server_resolves
                     (setActiveTab upload
                        (displayName_onChange (activeTab (setFile (Some sample_zip) initial))
                           (lit " My Skill ") (setFile (Some sample_zip) initial)))))
         = [Post (lit "/workspaces/current/tool-provider/skill/upload") (FormData entries)]
         ∧ form_get (lit "name") entries = Some (FormString (lit "My Skill"))
         ∧ sent_name (FormData entries) = Some (lit "My Skill")).
Proof.
  assert (Hu : trim (gitUrl (setActiveTab upload typed_git)) ≠ [])
    by (vm_compute; discriminate).
  assert (Hf : file (setFile (Some sample_zip) initial) = Some sample_zip)
    by reflexivity.
  split.
  - split; [exact Hu|].
    exact (proj1 (proj2 (displayName_shared sample_t server_resolves
                           (setActiveTab upload typed_git) (lit " Other "))) Hu).
  - split; [exact Hf|].
    exact (proj2 (proj2 (displayName_shared sample_t server_resolves
                           (setFile (Some sample_zip) initial) (lit " My Skill ")))
             sample_zip Hf).
Defined.

End SkillModalFacts.

(** * The key scheme of use-tools.ts *)

Module QueriesFacts.
Import UseTools Queries.

Lemma queryKey_prefix (q1 q2 : Query) :
  queryKey q1 `prefix_of` queryKey q2 → q1 = q2.
Proof.
  intros [k Hk].
  destruct q1 as [| | | | | |a|a| |a|a|a|[]], q2 as [| | | | | |b|b| |b|b|b|[]];
    vm_compute in Hk; try discriminate Hk; try reflexivity;
    by simplify_eq.
Qed.

(** X2: no query key of the file is a prefix of the key of another query,
    or of the same hook under another argument; every key starts with the
    name space. *)
Theorem queryKey_prefix_free (q1 q2 : Query) :
  (queryKey q1 `prefix_of` queryKey q2 → q1 = q2)
  ∧ head (queryKey q1) = Some NAME_SPACE.
Proof.
  split; [apply queryKey_prefix|]. by destruct q1.
Qed.

(** X3: the invalidate hook paired with a query hook asks for one
    invalidation, with that query's key under the same argument; the
    key it passes is a prefix of the key of no other query. *)
Theorem invalidate_own_key (q : Query) (h : Eff unit) :
  invalidate q = Some h →
  trace h = [InvalidateQueries (queryKey q)]
  ∧ ∀ k q', InvalidateQueries k ∈ trace h → k `prefix_of` queryKey q' → q' = q.
Proof.
  intros Hq.
  assert (E : trace h = [InvalidateQueries (queryKey q)]).
  { destruct q; simplify_eq/=; reflexivity. }
  split; [exact E|]. intros k q' Hin Hp. rewrite E in Hin.
  apply list_elem_of_singleton in Hin. injection Hin as ->.
  symmetry. by apply queryKey_prefix.
Qed.

Lemma invalidate_own_key_witness :
  invalidate (useSkillProviderDetail (lit "s1"))
  = Some (useInvalidateSkillProviderDetail (lit "s1"))
  ∧ trace (useInvalidateSkillProviderDetail (lit "s1"))
    = [InvalidateQueries [NAME_SPACE; lit "skill-provider-detail"; lit "s1"]].
Proof.
  assert (H : invalidate (useSkillProviderDetail (lit "s1"))
              = Some (useInvalidateSkillProviderDetail (lit "s1"))) by reflexivity.
  split; [exact H|].
  exact (proj1 (invalidate_own_key _ _ H)).
Defined.

(** X19: two queries fetch the same URL with the same parameters only if
    they are the same hook with the same argument, with one exception:
    the detail of the provider whose id is [list] is fetched from the URL
    of the provider list. *)
Theorem queryFn_collision (q1 q2 : Query) :
  queryFn q1 = queryFn q2 →
  q1 = q2
  ∨ (q1 = useSkillProviders ∧ q2 = useSkillProviderDetail (lit "list"))
  ∨ (q1 = useSkillProviderDetail (lit "list") ∧ q2 = useSkillProviders).
Proof.
  intros H.
  destruct q1 as [| | | | | |a|a| |a|a|a|[]], q2 as [| | | | | |b|b| |b|b|b|[]];
    try (left; reflexivity);
    try (vm_compute in H; discriminate H);
    injection H as H.
  - left. by rewrite H.
  - apply app_inv_tail in H. left. by rewrite H.
  - right. left. split; [done|]. by rewrite <- H.
  - right. right. split; [|done]. by rewrite H.
  - left. by rewrite H.
  - apply app_inv_tail in H. left. by rewrite H.
  - exfalso. apply (f_equal reverse) in H. rewrite !reverse_app in H. discriminate H.
  - exfalso. apply (f_equal reverse) in H. rewrite !reverse_app in H. discriminate H.
  - apply app_inv_tail in H. left. by rewrite H.
Qed.

Lemma queryFn_collision_witness :
  queryFn (useSkillProviderDetail (lit "list")) = queryFn useSkillProviders
  ∧ (useSkillProviderDetail (lit "list") = useSkillProviders
     ∨ (useSkillProviderDetail (lit "list") = useSkillProviders
        ∧ useSkillProviders = useSkillProviderDetail (lit "list"))
     ∨ (useSkillProviderDetail (lit "list") = useSkillProviderDetail (lit "list")
        ∧ useSkillProviders = useSkillProviders)).
Proof.
  assert (H : queryFn (useSkillProviderDetail (lit "list")) = queryFn useSkillProviders)
    by reflexivity.
  split; [exact H|]. exact (queryFn_collision _ _ H).
Defined.

Section ByType.
Variable CollectionType_value : CollectionType → jsstring.

Lemma known_types_distinct (c1 c2 : CollectionType) :
  NoDup (known_types CollectionType_value) →
  CollectionType_value c1 = CollectionType_value c2 → c1 = c2.
Proof.
  unfold known_types. simpl. intros Hnd Heq.
  repeat match goal with
         | H : NoDup (_ :: _) |- _ => apply NoDup_cons in H as [? H]
         end.
  destruct c1, c2; try reflexivity; exfalso; set_solver.
Qed.

(** X1: when the five collection types are distinct non-empty strings,
    invalidating by a known type asks for one invalidation, with the key
    of that type's listing hook, which is a prefix of the key of no
    other query. *)
Theorem useInvalidToolsByType_known (c : CollectionType) :
  NoDup (known_types CollectionType_value) →
  truthy (CollectionType_value c) = true →
  trace (useInvalidToolsByType CollectionType_value (Some (CollectionType_value c)))
  = [InvalidateQueries (queryKey (listing c))]
  ∧ ∀ q, queryKey (listing c) `prefix_of` queryKey q → q = listing c.
Proof.
  intros Hnd Ht. split.
  - unfold useInvalidToolsByType, useInvalidToolsKeyMap_get. rewrite Ht.
    assert (Hne : ∀ c', c' ≠ c → CollectionType_value c' ≠ CollectionType_value c).
    { intros c' Hc Heq. apply Hc. by apply known_types_distinct. }
    unfold useInvalidToolsKeyMap.
    destruct c;
      repeat first [ rewrite lookup_insert_eq | rewrite lookup_insert_ne by (by apply Hne) ];
      reflexivity.
  - intros q Hq. symmetry. by apply queryKey_prefix.
Qed.

End ByType.

Lemma useInvalidToolsByType_known_witness :
  NoDup (known_types sample_values)
  ∧ truthy (sample_values mcp) = true
  ∧ trace (useInvalidToolsByType sample_values (Some (lit "mcp")))
    = [InvalidateQueries [NAME_SPACE; lit "MCPTools"]].
Proof.
  assert (Hnd : NoDup (known_types sample_values)).
  { apply (bool_decide_unpack _). vm_compute. exact I. }
  assert (Ht : truthy (sample_values mcp) = true) by reflexivity.
  split; [exact Hnd|]. split; [exact Ht|].
  exact (proj1 (useInvalidToolsByType_known sample_values mcp Hnd Ht)).
Defined.

(** X4: two mutation hooks have the same mutation key only if they are
    the same hook, or are the hook that exchanges the MCP authorization
    code and the hook that refreshes the server code, which share one. *)
Theorem mutationKey_shared (m1 m2 : Mutation) (k : QueryKey) :
  mutationKey m1 = Some k →
  mutationKey m2 = Some k →
  m1 = m2
  ∨ (m1 = useUpdateMCPAuthorizationToken ∧ m2 = useRefreshMCPServerCode)
  ∨ (m1 = useRefreshMCPServerCode ∧ m2 = useUpdateMCPAuthorizationToken).
Proof.
  intros H1 H2. rewrite <- H2 in H1. clear H2.
  destruct m1, m2; vm_compute in H1; try discriminate H1; auto.
Qed.

Lemma mutationKey_shared_witness :
  mutationKey useUpdateMCPAuthorizationToken = Some [NAME_SPACE; lit "refresh-mcp-server-code"]
  ∧ mutationKey useRefreshMCPServerCode = Some [NAME_SPACE; lit "refresh-mcp-server-code"]
  ∧ (useUpdateMCPAuthorizationToken = useRefreshMCPServerCode
     ∨ (useUpdateMCPAuthorizationToken = useUpdateMCPAuthorizationToken
        ∧ useRefreshMCPServerCode = useRefreshMCPServerCode)
     ∨ (useUpdateMCPAuthorizationToken = useRefreshMCPServerCode
        ∧ useRefreshMCPServerCode = useUpdateMCPAuthorizationToken)).
Proof.
  assert (H1 : mutationKey useUpdateMCPAuthorizationToken
               = Some [NAME_SPACE; lit "refresh-mcp-server-code"]) by reflexivity.
  assert (H2 : mutationKey useRefreshMCPServerCode
               = Some [NAME_SPACE; lit "refresh-mcp-server-code"]) by reflexivity.
  split; [exact H1|]. split; [exact H2|].
  exact (mutationKey_shared _ _ _ H1 H2).
Defined.

Lemma queryKey_prefix_free_witness :
  queryKey useSkillProviders `prefix_of` queryKey useSkillProviders
  ∧ ¬ queryKey useSkillProviders `prefix_of` queryKey (useSkillProviderDetail (lit "s1")).
Proof.
  split; [done|]. intros H.
  discriminate (proj1 (queryKey_prefix_free useSkillProviders
                         (useSkillProviderDetail (lit "s1"))) H).
Defined.

End QueriesFacts.

(** * Selection in the skill list *)

Module SelectionFacts.
Import SkillList SkillListState JsFacts.

Lemma currentProvider_cons (x : SkillProvider.t) (list : SkillProviders) cur :
  currentProvider (x :: list) cur
  = if bool_decide (Some (SkillProvider.id x) = cur) then Some x
    else currentProvider list cur.
Proof. reflexivity. Qed.

Lemma currentProvider_unselected (list : SkillProviders) :
  currentProvider list None = None.
Proof.
  induction list as [|x list IH]; [done|].
  rewrite currentProvider_cons. by rewrite bool_decide_eq_false_2.
Qed.

Lemma find_id_Some (list : SkillProviders) (pid : jsstring) (p : SkillProvider.t) :
  currentProvider list (Some pid) = Some p →
  ∃ l1 l2, list = l1 ++ p :: l2 ∧ SkillProvider.id p = pid
           ∧ Forall (λ q, SkillProvider.id q ≠ pid) l1.
Proof.
  induction list as [|x list IH]; [done|].
  rewrite currentProvider_cons. case_bool_decide as Hx.
  - intros [= ->]. exists [], list. injection Hx as Hx. by repeat split.
  - intros Hf. destruct (IH Hf) as (l1 & l2 & -> & Hp & Hl).
    exists (x :: l1), l2. repeat split; [done|].
    constructor; [|done]. intros E. apply Hx. by rewrite E.
Qed.

Lemma find_id_present (list : SkillProviders) (p : SkillProvider.t) :
  p ∈ list →
  ∃ q, currentProvider list (Some (SkillProvider.id p)) = Some q
       ∧ SkillProvider.id q = SkillProvider.id p.
Proof.
  induction 1 as [p list|p x list _ IH]; rewrite currentProvider_cons.
  - rewrite bool_decide_eq_true_2 by done. by exists p.
  - case_bool_decide as Hx; [|done]. exists x. split; [done|]. by injection Hx.
Qed.

Lemma same_id_same_provider (list : SkillProviders) (p q : SkillProvider.t) :
  NoDup (SkillProvider.id <$> list) → p ∈ list → q ∈ list →
  SkillProvider.id p = SkillProvider.id q → p = q.
Proof.
  induction list as [|x list IH]; simpl; intros Hnd Hp Hq Heq.
  - by apply elem_of_nil in Hp.
  - apply NoDup_cons in Hnd as [Hx Hnd].
    apply elem_of_cons in Hp as [->|Hp]; apply elem_of_cons in Hq as [->|Hq].
    + done.
    + exfalso. apply Hx. rewrite Heq. by apply list_elem_of_fmap_2.
    + exfalso. apply Hx. rewrite <- Heq. by apply list_elem_of_fmap_2.
    + by apply IH.
Qed.

Lemma currentProvider_elem (list : SkillProviders) cur (p : SkillProvider.t) :
  currentProvider list cur = Some p → p ∈ list ∧ Some (SkillProvider.id p) = cur.
Proof.
  unfold currentProvider. intros H. apply find_some in H as [Hin Hb].
  split; [by apply list_elem_of_In|]. by apply bool_decide_eq_true in Hb.
Qed.

Lemma filteredList_elem toLowerCase (list : SkillProviders) s p :
  p ∈ filteredList toLowerCase list s → p ∈ list.
Proof.
  unfold filteredList. rewrite !list_elem_of_In, filter_In. tauto.
Qed.

Section Component.
Variable toLowerCase : jsstring → jsstring.

(** X5: the detail panel depends on the whole collection and the selected
    id, not on the search text: it is absent exactly when no provider has
    the selected id, and otherwise shows the first provider with it. *)
Theorem detailPanel_first_match (data : option SkillProviders)
    (searchText pid : jsstring) :
  (detailPanel (render toLowerCase data searchText (Some pid)) = None
   ↔ Forall (λ p, SkillProvider.id p ≠ pid) (default [] data))
  ∧ (∀ d, detailPanel (render toLowerCase data searchText (Some pid)) = Some d →
       ∃ l1 l2, default [] data = l1 ++ detail d :: l2
                ∧ SkillProvider.id (detail d) = pid
                ∧ Forall (λ p, SkillProvider.id p ≠ pid) l1)
  ∧ detailPanel (render toLowerCase data searchText None) = None.
Proof.
  unfold render. simpl. split; [|split].
  - destruct (currentProvider (default [] data) (Some pid)) as [p|] eqn:Hc; simpl.
    + split; [done|]. intros Hall. exfalso.
      apply currentProvider_elem in Hc as [Hin Hid].
      rewrite Forall_forall in Hall. apply (Hall p Hin). by injection Hid.
    + split; [intros _|done]. unfold currentProvider in Hc.
      apply Forall_forall. intros p Hp Hid.
      apply list_elem_of_In in Hp.
      pose proof (find_none _ _ Hc p Hp) as Hn. simpl in Hn.
      apply bool_decide_eq_false in Hn. apply Hn. by rewrite Hid.
  - intros d. destruct (currentProvider (default [] data) (Some pid)) as [p|] eqn:Hc;
      simpl; [|done].
    intros [= <-]. simpl. by apply find_id_Some.
  - by rewrite currentProvider_unselected.
Qed.

(** X7: clicking a card of the grid selects an id the collection has, so
    the detail panel opens on a provider with that id; when the ids of
    the collection are distinct it is the provider of the clicked card.
    Hiding the panel removes it. *)
Theorem select_card_opens_panel (st : State) (searchText : jsstring)
    (card : SkillCardProps) :
  card ∈ cards (view toLowerCase searchText st) →
  (∃ d, detailPanel (view toLowerCase searchText
                       (setCurrentProviderID (Some (SkillCard.onClick card)) st)) = Some d
        ∧ SkillProvider.id (detail d) = SkillProvider.id (SkillList.data card)
        ∧ (NoDup (SkillProvider.id <$> default [] (data st)) →
           detail d = SkillList.data card))
  ∧ detailPanel (view toLowerCase searchText
                   (onHide (setCurrentProviderID (Some (SkillCard.onClick card)) st))) = None.
Proof.
  intros Hcard.
  assert (Hin : SkillList.data card ∈ default [] (data st)).
  { unfold view, render in Hcard. simpl in Hcard.
    apply list_elem_of_fmap in Hcard as (p & -> & Hp). simpl.
    by apply filteredList_elem in Hp. }
  split.
  - destruct (find_id_present _ _ Hin) as (q & Hq & Hid).
    exists {| detail := q |}. unfold view, render, SkillCard.onClick. simpl.
    rewrite Hq. simpl. split; [done|]. split; [done|].
    intros Hnd. apply currentProvider_elem in Hq as [Hqin _].
    by apply (same_id_same_provider (default [] (data st))).
  - unfold view, render. simpl. by rewrite currentProvider_unselected.
Qed.

(** X8: when the ids of the collection are distinct, a card of the grid
    has the selected border exactly when the detail panel shows that
    card's provider. *)
Theorem selected_card_is_panel (st : State) (searchText : jsstring)
    (card : SkillCardProps) :
  NoDup (SkillProvider.id <$> default [] (data st)) →
  card ∈ cards (view toLowerCase searchText st) →
  (SkillCard.selected card = true
   ↔ detailPanel (view toLowerCase searchText st)
     = Some {| detail := SkillList.data card |}).
Proof.
  intros Hnd Hcard. unfold view, render in *. simpl in *.
  apply list_elem_of_fmap in Hcard as (p & -> & Hp).
  apply filteredList_elem in Hp. unfold SkillCard.selected. simpl.
  destruct (currentProvider (default [] (data st)) (currentProviderID st))
    as [c|] eqn:Hc; simpl; [|done].
  apply currentProvider_elem in Hc as [Hcin _].
  rewrite bool_decide_eq_true. split.
  - intros Hid. do 2 f_equal.
    by apply (same_id_same_provider (default [] (data st))).
  - by intros [= ->].
Qed.

End Component.

Lemma filter_narrows {A} (f g : A → bool) (l : list A) :
  (∀ x, f x = true → g x = true) →
  List.filter f l `sublist_of` List.filter g l.
Proof.
  intros Hfg. induction l as [|x l IH]; simpl; [constructor|].
  destruct (f x) eqn:Hf.
  - rewrite (Hfg x Hf). by constructor.
  - destruct (g x); [by constructor | done].
Qed.

Lemma includes_narrows (hay a b : jsstring) :
  (∃ pre post, b = pre ++ a ++ post) →
  includes hay b = true → includes hay a = true.
Proof.
  intros (pre & post & ->). rewrite !includes_infix.
  intros (pre' & post' & ->). exists (pre' ++ pre), (post ++ post').
  by rewrite <- !(assoc_L (++)).
Qed.

Section Search.
Variable toLowerCase : jsstring → jsstring.

Hypothesis toLowerCase_ascii :
  ∀ s, Forall (λ c, (c < 128)%N) s → toLowerCase s = lower_unit <$> s.

(** X6: a search text whose lower-cased form contains the lower-cased
    form of another keeps only providers the other keeps, in the same
    order: refining the search never adds a card. *)
Theorem filteredList_narrows (list : SkillProviders) (s1 s2 : jsstring) :
  (∃ pre post, toLowerCase s2 = pre ++ toLowerCase s1 ++ post) →
  filteredList toLowerCase list s2 `sublist_of` filteredList toLowerCase list s1.
Proof.
  intros Hinf. unfold filteredList. apply filter_narrows. intros p.
  destruct s1 as [|c1 s1]; [done|]. simpl truthy. cbv iota.
  destruct s2 as [|c2 s2]; simpl truthy; cbv iota.
  - intros _. destruct Hinf as (pre & post & H).
    rewrite (toLowerCase_ascii []) in H by constructor. simpl in H.
    symmetry in H. apply app_eq_nil in H as [_ H]. apply app_eq_nil in H as [H _].
    rewrite H. apply orb_true_iff. left. apply includes_infix.
    by exists [], (toLowerCase (SkillProvider.name p)).
  - rewrite !orb_true_iff. intros [H|H]; [left|right];
      by apply (includes_narrows _ _ _ Hinf).
Qed.

End Search.

(** Beta stays in the panel while the search text hides its card. *)
Lemma detailPanel_first_match_witness :
  cards (render ascii_toLowerCase (Some [sample_alpha; sample_beta]) (lit "alp")
           (Some (lit "s2")))
  = [{| key := lit "s1"; SkillList.data := sample_alpha;
        card_currentProvider := Some sample_beta |}]
  ∧ ∃ l1 l2, default [] (Some [sample_alpha; sample_beta]) = l1 ++ sample_beta :: l2
             ∧ SkillProvider.id sample_beta = lit "s2"
             ∧ Forall (λ p, SkillProvider.id p ≠ lit "s2") l1.
Proof.
  split; [vm_compute; reflexivity|].
  exact (proj1 (proj2 (detailPanel_first_match ascii_toLowerCase
                         (Some [sample_alpha; sample_beta]) (lit "alp") (lit "s2")))
           {| detail := sample_beta |} eq_refl).
Defined.

Lemma select_card_opens_panel_witness :
  {| key := lit "s2"; SkillList.data := sample_beta; card_currentProvider := None |}
    ∈ cards (view ascii_toLowerCase (lit "B") sample_page)
  ∧ ∃ d, detailPanel (view ascii_toLowerCase (lit "B")
                        (setCurrentProviderID (Some (lit "s2")) sample_page)) = Some d
         ∧ SkillProvider.id (detail d) = lit "s2"
         ∧ (NoDup (SkillProvider.id <$> default [] (data sample_page)) →
            detail d = sample_beta).
Proof.
  assert (H : {| key := lit "s2"; SkillList.data := sample_beta;
                 card_currentProvider := None |}
                ∈ cards (view ascii_toLowerCase (lit "B") sample_page)).
  { apply list_elem_of_In. vm_compute. left. reflexivity. }
  split; [exact H|].
  exact (proj1 (select_card_opens_panel ascii_toLowerCase sample_page (lit "B") _ H)).
Defined.

Lemma selected_card_is_panel_witness :
  NoDup (SkillProvider.id <$> default [] (data sample_page))
  ∧ {| key := lit "s2"; SkillList.data := sample_beta;
       card_currentProvider := Some sample_beta |}
      ∈ cards (view ascii_toLowerCase [] (setCurrentProviderID (Some (lit "s2")) sample_page))
  ∧ SkillCard.selected
      {| key := lit "s2"; SkillList.data := sample_beta;
         card_currentProvider := Some sample_beta |} = true.
Proof.
  assert (Hnd : NoDup (SkillProvider.id <$> default [] (data sample_page))).
  { apply (bool_decide_unpack _). vm_compute. exact I. }
  assert (H : {| key := lit "s2"; SkillList.data := sample_beta;
                 card_currentProvider := Some sample_beta |}
                ∈ cards (view ascii_toLowerCase []
                           (setCurrentProviderID (Some (lit "s2")) sample_page))).
  { apply list_elem_of_In. vm_compute. right. left. reflexivity. }
  split; [exact Hnd|]. split; [exact H|].
  apply (proj2 (selected_card_is_panel ascii_toLowerCase
                  (setCurrentProviderID (Some (lit "s2")) sample_page) [] _ Hnd H)).
  vm_compute. reflexivity.
Defined.

Lemma filteredList_narrows_witness :
  (∃ pre post, ascii_toLowerCase (lit "ALP")
               = pre ++ ascii_toLowerCase (lit "l") ++ post)
  ∧ filteredList ascii_toLowerCase [sample_alpha; sample_beta] (lit "ALP")
    `sublist_of` filteredList ascii_toLowerCase [sample_alpha; sample_beta] (lit "l").
Proof.
  assert (H : ∃ pre post, ascii_toLowerCase (lit "ALP")
                          = pre ++ ascii_toLowerCase (lit "l") ++ post).
  { exists (lit "a"), (lit "p"). vm_compute. reflexivity. }
  split; [exact H|].
  exact (filteredList_narrows ascii_toLowerCase (λ s _, eq_refl)
           [sample_alpha; sample_beta] (lit "l") (lit "ALP") H).
Defined.

End SelectionFacts.

(** * More on the install modal *)

Module SubmitFacts.
Import SkillModal NewSkillCard SkillModalSession JsFacts.

Section Handlers.
Variable t : jsstring → jsstring.
Variable server : jsstring → Body → Outcome.

(** The paths through [handleSubmit], as in the proofs above. *)
Ltac submit_paths st :=
  unfold handleSubmit, UseTools.installSkill, UseTools.uploadSkill, UseTools.post;
  destruct st as [tab loading url branch nm fl]; simpl;
  destruct tab;
  [ destruct (truthy (trim url)) eqn:Hurl; simpl;
    [ match goal with
      | |- context [server ?u ?b] => destruct (server u b) eqn:Hsrv
      end; simpl
    | ]
  | destruct fl as [f|]; simpl;
    [ match goal with
      | |- context [server ?u ?b] => destruct (server u b) eqn:Hsrv
      end; simpl
    | ] ].

Ltac member H :=
  apply list_elem_of_In in H; simpl in H;
  repeat (destruct H as [H|H]; [try discriminate H|]); try contradiction.

(** X14: while a request of [handleSubmit] is in flight the loading flag
    is set, which disables the install and cancel buttons, and when the
    handler is done the flag is cleared again, whether the request
    resolved or was rejected. *)
Theorem handleSubmit_loading_bracket (st : State) (w : World) (i : nat)
    (u : jsstring) (b : Body) :
  trace (handleSubmit t server st) !! i = Some (Post u b) →
  isLoading (skillModal (run (take i (trace (handleSubmit t server st))) w)) = true
  ∧ isLoading (skillModal (run (take (S i) (trace (handleSubmit t server st))) w)) = true
  ∧ isLoading (skillModal (run (trace (handleSubmit t server st)) w)) = false.
Proof.
  submit_paths st; intros Hi;
    repeat (destruct i as [|i]; simpl in Hi; try discriminate Hi); done.
Qed.

(** X15: every run of [handleSubmit] shows exactly one toast, a success
    toast exactly when the request resolved, and sends one request when
    the validation passes and none otherwise. *)
Theorem handleSubmit_one_toast (st : State) :
  count is_any_toast (trace (handleSubmit t server st)) = 1
  ∧ count (is_toast toast_success) (trace (handleSubmit t server st))
    = count is_resolved (trace (handleSubmit t server st))
  ∧ count is_post (trace (handleSubmit t server st))
    = (if passes_validation st then 1 else 0).
Proof.
  unfold passes_validation. submit_paths st; try rewrite Hurl; done.
Qed.

(** X16: an upload-tab submission with a file selected sends one request,
    to the upload endpoint, as form data holding the file under [file]
    and, when the trimmed display name is not empty, that name under
    [name]. *)
Theorem handleSubmit_upload_form (st : State) (picked : File.t) :
  activeTab st = upload →
  file st = Some picked →
  List.filter is_post (trace (handleSubmit t server st)) =
    [Post (lit "/workspaces/current/tool-provider/skill/upload")
       (FormData
          ((lit "file", FormFile picked)
           :: if decide (trim (name st) = []) then []
              else [(lit "name", FormString (trim (name st)))]))].
Proof.
  submit_paths st; intros Htab Hf; try discriminate; injection Hf as ->;
    destruct (trim nm); reflexivity.
Qed.

(** X17: when the request is rejected, the one error toast carries the
    thrown value's message if it has a non-empty one, and otherwise the
    translation of the install failure on the git tab and of the upload
    failure on the upload tab. *)
Theorem handleSubmit_failure_message (st : State) (error : Thrown) :
  Settled (Rejected error) ∈ trace (handleSubmit t server st) →
  List.filter is_any_toast (trace (handleSubmit t server st)) =
    [ToastNotify toast_error
       (let fallback :=
          t (match activeTab st with
             | git => lit "tools.skill.errors.installFailed"
             | upload => lit "tools.skill.errors.uploadFailed"
             end) in
        match message error with
        | Some m => if decide (m = []) then fallback else m
        | None => fallback
        end)].
Proof.
  submit_paths st; intros Hin; member Hin; injection Hin as ->;
    destruct error as [[[|c m]|]]; reflexivity.
Qed.

Lemma act_zip_or_none (a : Action) (st : State) :
  zip_or_none st → zip_or_none (act t server a st).
Proof.
  unfold zip_or_none. destruct a as [tab|v|v|v|files|]; simpl; try done.
  - by destruct (activeTab st).
  - unfold handleFileChange. destruct files as [[|f0 files]|]; simpl; try done.
    destruct (endsWith (File.name f0) (lit ".zip")) eqn:He; simpl; [|done].
    intros _. by apply endsWith_suffix.
  - destruct (isLoading st); [done|]. revert st. intros st.
    submit_paths st; done.
Qed.

Lemma session_zip_or_none (actions : list Action) (st : State) :
  zip_or_none st → zip_or_none (session t server actions st).
Proof.
  revert st. induction actions as [|a actions IH]; intros st H; [done|].
  simpl. apply IH. by apply act_zip_or_none.
Qed.

(** X18: whatever the user does in the modal from its first render on,
    the selected file is either absent or named [*.zip], so every upload
    request carries a file whose name ends in [.zip]. *)
Theorem upload_always_zip (actions : list Action) (u : jsstring)
    (entries : list (jsstring * FormValue)) (sent : File.t) :
  zip_or_none (session t server actions initial)
  ∧ (Post u (FormData entries)
       ∈ trace (handleSubmit t server (session t server actions initial)) →
     (lit "file", FormFile sent) ∈ entries →
     lit ".zip" `suffix_of` File.name sent).
Proof.
  assert (Hz : zip_or_none (session t server actions initial)).
  { by apply session_zip_or_none. }
  split; [exact Hz|]. revert Hz.
  generalize (session t server actions initial). intros st.
  unfold zip_or_none.
  submit_paths st; intros Hz Hin; member Hin; injection Hin as <- <-;
    intros Hf; destruct (trim nm); member Hf; by injection Hf as <-.
Qed.

Lemma handleSubmit_resolved (st : State) (provider : SkillProvider.t) :
  Settled (Resolved provider) ∈ trace (handleSubmit t server st) →
  ∃ u b,
    trace (handleSubmit t server st) =
      [SetIsLoading true; Post u b; Settled (Resolved provider);
       InvalidateQueries UseTools.skillProvidersKey;
       ToastNotify toast_success (t (lit "tools.skill.installSuccess"));
       OnConfirm provider; OnHide; SetIsLoading false].
Proof.
  submit_paths st; intros Hin; member Hin; injection Hin as ->; eauto.
Qed.

Section Page.
Variable toLowerCase : jsstring → jsstring.

(** X9: after a submission that resolved with a provider, the list has
    refetched and selected that provider's id and the modal is closed.
    If the refetched collection has distinct ids and holds the provider,
    the detail panel shows it; if it holds no provider with that id, no
    panel is shown. *)
Theorem install_then_select (st : State) (provider : SkillProvider.t)
    (refetched : option SkillList.SkillProviders) (page : SkillListState.State)
    (w : World) (searchText : jsstring) :
  Settled (Resolved provider) ∈ trace (handleSubmit t server st) →
  let page' := SkillListState.replay refetched (trace (handleSubmit t server st)) page in
  showModal (run (trace (handleSubmit t server st)) w) = false
  ∧ SkillListState.data page' = refetched
  ∧ SkillListState.currentProviderID page' = Some (SkillProvider.id provider)
  ∧ (NoDup (SkillProvider.id <$> default [] refetched) →
     provider ∈ default [] refetched →
     SkillList.detailPanel (SkillListState.view toLowerCase searchText page')
     = Some {| SkillList.detail := provider |})
  ∧ (Forall (λ p, SkillProvider.id p ≠ SkillProvider.id provider) (default [] refetched) →
     SkillList.detailPanel (SkillListState.view toLowerCase searchText page') = None).
Proof.
  intros Hin. destruct (handleSubmit_resolved st provider Hin) as (u & b & ->).
  simpl. split; [done|]. split; [done|]. split; [done|].
  unfold SkillListState.view, SkillList.render. simpl. split.
  - intros Hnd Hp.
    destruct (SelectionFacts.find_id_present _ _ Hp) as (q & Hq & Hid).
    rewrite Hq. simpl. do 2 f_equal.
    apply SelectionFacts.currentProvider_elem in Hq as [Hqin _].
    by apply (SelectionFacts.same_id_same_provider (default [] refetched)).
  - intros Hall.
    by rewrite (SkillListFacts.currentProvider_None _ _ Hall).
Qed.

End Page.

End Handlers.

Lemma handleSubmit_loading_bracket_witness :
  trace (handleSubmit sample_t server_rejects typed_git) !! 1
  = Some (Post (lit "/workspaces/current/tool-provider/skill/install")
            (JsonBody
               {| InstallPayload.source_type := source_git;
                  InstallPayload.git_url := Some (lit "https://x/y");
                  InstallPayload.git_branch := Some (lit "main");
                  InstallPayload.path := None;
                  InstallPayload.name := Some (lit "My Skill") |}))
  ∧ isLoading (skillModal (run (take 1 (trace (handleSubmit sample_t server_rejects typed_git)))
                             {| showModal := true; skillModal := typed_git |})) = true
  ∧ isLoading (skillModal (run (trace (handleSubmit sample_t server_rejects typed_git))
                             {| showModal := true; skillModal := typed_git |})) = false.
Proof.
  assert (H : trace (handleSubmit sample_t server_rejects typed_git) !! 1
    = Some (Post (lit "/workspaces/current/tool-provider/skill/install")
            (JsonBody
               {| InstallPayload.source_type := source_git;
                  InstallPayload.git_url := Some (lit "https://x/y");
                  InstallPayload.git_branch := Some (lit "main");
                  InstallPayload.path := None;
                  InstallPayload.name := Some (lit "My Skill") |}))).
  { vm_compute. reflexivity. }
  destruct (handleSubmit_loading_bracket sample_t server_rejects typed_git
              {| showModal := true; skillModal := typed_git |} 1 _ _ H) as (A & _ & C).
  split; [exact H|]. split; [exact A | exact C].
Defined.

Lemma handleSubmit_upload_form_witness :
  activeTab (setName (lit " Zip Skill ") picked_upload) = upload
  ∧ file (setName (lit " Zip Skill ") picked_upload) = Some sample_zip
  ∧ List.filter is_post
      (trace (handleSubmit sample_t server_resolves (setName (lit " Zip Skill ") picked_upload)))
    = [Post (lit "/workspaces/current/tool-provider/skill/upload")
         (FormData [(lit "file", FormFile sample_zip);
                    (lit "name", FormString (lit "Zip Skill"))])].
Proof.
  assert (Ht : activeTab (setName (lit " Zip Skill ") picked_upload) = upload)
    by reflexivity.
  assert (Hf : file (setName (lit " Zip Skill ") picked_upload) = Some sample_zip)
    by reflexivity.
  split; [exact Ht|]. split; [exact Hf|].
  exact (handleSubmit_upload_form sample_t server_resolves _ _ Ht Hf).
Defined.

Lemma handleSubmit_failure_message_witness :
  Settled (Rejected {| message := Some (lit "clone failed") |})
    ∈ trace (handleSubmit sample_t server_rejects picked_upload)
  ∧ List.filter is_any_toast (trace (handleSubmit sample_t server_rejects picked_upload))
    = [ToastNotify toast_error (lit "clone failed")].
Proof.
  assert (H : Settled (Rejected {| message := Some (lit "clone failed") |})
                ∈ trace (handleSubmit sample_t server_rejects picked_upload)).
  { apply (bool_decide_unpack _). vm_compute. exact I. }
  split; [exact H|].
  exact (handleSubmit_failure_message sample_t server_rejects picked_upload _ H).
Defined.

(** A text file is refused, a zip archive is taken, and the upload
    carries the archive. *)
Lemma upload_always_zip_witness :
  Post (lit "/workspaces/current/tool-provider/skill/upload")
       (FormData [(lit "file", FormFile sample_zip)])
    ∈ trace (handleSubmit sample_t server_resolves
               (session sample_t server_resolves
                  [ClickTab upload; PickFiles (Some [sample_txt]);
                   PickFiles (Some [sample_zip]); PickFiles None] initial))
  ∧ (lit "file", FormFile sample_zip) ∈ [(lit "file", FormFile sample_zip)]
  ∧ lit ".zip" `suffix_of` File.name sample_zip.
Proof.
  assert (H : Post (lit "/workspaces/current/tool-provider/skill/upload")
       (FormData [(lit "file", FormFile sample_zip)])
    ∈ trace (handleSubmit sample_t server_resolves
               (session sample_t server_resolves
                  [ClickTab upload; PickFiles (Some [sample_txt]);
                   PickFiles (Some [sample_zip]); PickFiles None] initial))).
  { apply (bool_decide_unpack _). vm_compute. exact I. }
  assert (Hf : (lit "file", FormFile sample_zip) ∈ [(lit "file", FormFile sample_zip)]).
  { apply list_elem_of_here. }
  split; [exact H|]. split; [exact Hf|].
  exact (proj2 (upload_always_zip sample_t server_resolves _ _ _ sample_zip) H Hf).
Defined.

Lemma install_then_select_witness :
  Settled (Resolved SkillList.sample_provider)
    ∈ trace (handleSubmit sample_t server_resolves typed_git)
  ∧ SkillListState.currentProviderID
      (SkillListState.replay (Some [SkillList.sample_alpha; SkillList.sample_provider])
         (trace (handleSubmit sample_t server_resolves typed_git))
         SkillListState.sample_page)
    = Some (lit "skill-1")
  ∧ showModal (run (trace (handleSubmit sample_t server_resolves typed_git))
                 {| showModal := true; skillModal := typed_git |}) = false.
Proof.
  assert (H : Settled (Resolved SkillList.sample_provider)
                ∈ trace (handleSubmit sample_t server_resolves typed_git)).
  { apply (bool_decide_unpack _). vm_compute. exact I. }
  destruct (install_then_select sample_t server_resolves SkillList.ascii_toLowerCase
              typed_git SkillList.sample_provider
              (Some [SkillList.sample_alpha; SkillList.sample_provider])
              SkillListState.sample_page
              {| showModal := true; skillModal := typed_git |} [] H) as (A & _ & C & _).
  split; [exact H|]. split; [exact C | exact A].
Defined.

End SubmitFacts.

(** * Deleting a skill from its card *)

Module SkillCardFacts.
Import SkillCard SkillCardView.

Section Handlers.
Variable server : jsstring → DeleteOutcome.

(** X10: when the delete request goes through, [handleDelete] sends that
    one request for the card's provider, invalidates the skill-provider
    list once, clears the deleting flag, hides the dialog and calls
    [onDeleted] once, in this order, and completes. *)
Theorem handleDelete_success (data : SkillProvider.t) (st : State) :
  server (lit "/workspaces/current/tool-provider/skill/" ++ SkillProvider.id data) = Deleted →
  handleDelete server data =
    ([SetDeleting true;
      Del (lit "/workspaces/current/tool-provider/skill/" ++ SkillProvider.id data);
      DelSettled Deleted;
      Shared (InvalidateQueries UseTools.skillProvidersKey);
      SetDeleting false; SetShowDeleteConfirm false; OnDeleted], inr ())
  ∧ deleting (replay (handleDelete server data).1 st) = false
  ∧ isShowDeleteConfirm (replay (handleDelete server data).1 st) = false.
Proof.
  intros Hs. unfold handleDelete, deleteSkill, del. rewrite Hs. done.
Qed.

(** X11: when the delete request is rejected, [handleDelete] stops at the
    rejection and throws it on: nothing is invalidated, [onDeleted] is not
    called, the dialog stays as it was, and the deleting flag, set before
    the request, is left set. *)
Theorem handleDelete_failure (data : SkillProvider.t) (st : State) (error : Thrown) :
  server (lit "/workspaces/current/tool-provider/skill/" ++ SkillProvider.id data)
  = DeleteRejected error →
  handleDelete server data =
    ([SetDeleting true;
      Del (lit "/workspaces/current/tool-provider/skill/" ++ SkillProvider.id data);
      DelSettled (DeleteRejected error)], inl error)
  ∧ List.filter is_shared_invalidate (handleDelete server data).1 = []
  ∧ List.filter is_on_deleted (handleDelete server data).1 = []
  ∧ deleting (replay (handleDelete server data).1 st) = true
  ∧ isShowDeleteConfirm (replay (handleDelete server data).1 st) = isShowDeleteConfirm st.
Proof.
  intros Hs. unfold handleDelete, deleteSkill, del. rewrite Hs. done.
Qed.

Variable data : SkillProvider.t.

Lemma act_non_manager (a : Action) (st : State) :
  isShowDeleteConfirm st = false →
  isShowDeleteConfirm (act false server data a st).1 = false
  ∧ (act false server data a st).2 = [].
Proof.
  intros H. unfold act, rendered. destruct a; simpl; rewrite ?H; done.
Qed.

Lemma session_non_manager (actions : list Action) (acc : State * list CardEvent) :
  isShowDeleteConfirm acc.1 = false →
  isShowDeleteConfirm
    (foldl (λ acc a, let '(st', tr) := act false server data a acc.1 in (st', acc.2 ++ tr))
       acc actions).1 = false
  ∧ (foldl (λ acc a, let '(st', tr) := act false server data a acc.1 in (st', acc.2 ++ tr))
       acc actions).2 = acc.2.
Proof.
  revert acc. induction actions as [|a actions IH]; intros acc H; [done|].
  simpl. destruct (act_non_manager a acc.1 H) as [H1 H2].
  destruct (act false server data a acc.1) as [st' tr] eqn:Ha. simpl in *.
  destruct (IH (st', acc.2 ++ tr) H1) as [IH1 IH2].
  split; [done|]. rewrite IH2. simpl. rewrite H2. by rewrite app_nil_r.
Qed.

(** X12: on the card of a user who is not a workspace manager, no
    sequence of clicks opens the delete dialog or has any effect: no
    delete request is ever sent. *)
Theorem non_manager_never_deletes (isCurrentWorkspaceManager : bool)
    (actions : list Action) :
  isCurrentWorkspaceManager = false →
  isShowDeleteConfirm (session isCurrentWorkspaceManager server data actions initial).1 = false
  ∧ (session isCurrentWorkspaceManager server data actions initial).2 = [].
Proof.
  intros ->. unfold session. by apply (session_non_manager actions (initial, [])).
Qed.

End Handlers.

Lemma handleDelete_success_witness :
  server_deletes (lit "/workspaces/current/tool-provider/skill/"
                  ++ SkillProvider.id SkillList.sample_provider) = Deleted
  ∧ deleting (replay (handleDelete server_deletes SkillList.sample_provider).1 confirming)
    = false
  ∧ isShowDeleteConfirm
      (replay (handleDelete server_deletes SkillList.sample_provider).1 confirming) = false.
Proof.
  assert (H : server_deletes (lit "/workspaces/current/tool-provider/skill/"
                              ++ SkillProvider.id SkillList.sample_provider) = Deleted)
    by reflexivity.
  split; [exact H|].
  exact (proj2 (handleDelete_success server_deletes SkillList.sample_provider confirming H)).
Defined.

Lemma handleDelete_failure_witness :
  server_refuses (lit "/workspaces/current/tool-provider/skill/"
                  ++ SkillProvider.id SkillList.sample_provider)
  = DeleteRejected {| message := Some (lit "in use") |}
  ∧ deleting (replay (handleDelete server_refuses SkillList.sample_provider).1 confirming)
    = true
  ∧ isShowDeleteConfirm
      (replay (handleDelete server_refuses SkillList.sample_provider).1 confirming) = true.
Proof.
  assert (H : server_refuses (lit "/workspaces/current/tool-provider/skill/"
                              ++ SkillProvider.id SkillList.sample_provider)
              = DeleteRejected {| message := Some (lit "in use") |}) by reflexivity.
  destruct (handleDelete_failure server_refuses SkillList.sample_provider confirming _ H)
    as (_ & _ & _ & A & B).
  split; [exact H|]. split; [exact A | exact B].
Defined.

Lemma non_manager_never_deletes_witness :
  false = false
  ∧ (session false server_deletes SkillList.sample_provider
       [ClickCard; OpenChange true; Remove; ConfirmDelete] initial).2 = [].
Proof.
  split; [reflexivity|].
  exact (proj2 (non_manager_never_deletes server_deletes SkillList.sample_provider false
                  [ClickCard; OpenChange true; Remove; ConfirmDelete] eq_refl)).
Defined.

(** The same clicks by a workspace manager do delete. *)
Example manager_deletes :
  List.filter is_del
    (session true server_deletes SkillList.sample_provider
       [ClickCard; OpenChange true; Remove; ConfirmDelete] initial).2
  = [Del (lit "/workspaces/current/tool-provider/skill/skill-1")].
Proof. vm_compute. reflexivity. Qed.

End SkillCardFacts.

(** * Opening the install modal *)

Module NewSkillCardFacts.
Import NewSkillCardView.

(** X13: for a user who is not a workspace manager the create card is not
    rendered, so no sequence of actions opens the install modal. *)
Theorem non_manager_never_opens (isCurrentWorkspaceManager : bool)
    (actions : list Action) :
  isCurrentWorkspaceManager = false →
  session isCurrentWorkspaceManager actions false = false.
Proof.
  intros ->. unfold session. induction actions as [|a actions IH]; [done|].
  simpl. by destruct a.
Qed.

Lemma non_manager_never_opens_witness :
  false = false ∧ session false [ClickCard; HideModal; ClickCard] false = false.
Proof.
  split; [reflexivity|].
  exact (non_manager_never_opens false [ClickCard; HideModal; ClickCard] eq_refl).
Defined.

(** A workspace manager opens the modal with one click. *)
Example manager_opens : session true [ClickCard] false = true.
Proof. reflexivity. Qed.

End NewSkillCardFacts.
